(** * lichess-bot [strategies.py]: the homemade engines and the file-based
      external-process driver

    A shallow embedding of [strategies.py].  The driver [Engine.search]
    translates a time budget into the backend's time control, writes a request
    file, runs [~/bin/engine] on it, reads the response file, extracts the
    move token and applies it to the board.

    Conventions of the embedding
    - Python text is a [string] of 8-bit characters (code points below 256).
    - A Python [int] is a [Z]; a Python [float] is an IEEE 754 binary64
      value ([spec_float] at precision 53), multiplied with rounding to
      nearest even and truncated by [int(x)], which raises on an infinity
      or a NaN.  The fields of [chess.engine.Limit] hold either.
    - Exceptions are values of [exn]; a computation that may raise returns a
      [result].
    - python-chess, the backend binary and [str] on floats are not part of
      [strategies.py]; the driver is parameterised over them, and over what
      the operating system answers to [os.makedirs] and [open]. *)

From Stdlib Require Import QArith Ascii.
From Stdlib Require Import Floats.SpecFloat.
From stdpp Require Import gmap strings pretty list.

Local Open Scope Z_scope.

(** ** Python exceptions and results *)

Inductive exn : Set :=
| TypeError
| ValueError
| IndexError
| FileNotFoundError
| OverflowError
| OSError
| UnicodeDecodeError.

Global Instance exn_eq_dec : EqDecision exn.
Proof. solve_decision. Defined.

Inductive result (A : Type) : Type :=
| Return (a : A)
| Raise (e : exn).
Arguments Return {A} a.
Arguments Raise {A} e.

Definition result_bind {A B} (r : result A) (k : A → result B) : result B :=
  match r with
  | Return a => k a
  | Raise e => Raise e
  end.

(** ** Python numbers *)

(** Binary64 floating point, as Python's [float]. *)
Module Float64.

Definition prec : Z := 53.
Definition emax : Z := 1024.

(** The double nearest to [m * 2^e] (ties to even). *)
Definition of_dyadic (m e : Z) : spec_float :=
  binary_normalize prec emax m e false.

(** [float(z)] for an integer [z]. *)
Definition of_Z (z : Z) : spec_float := of_dyadic z 0.

(** [x * y] on floats: the correctly rounded product, an infinity on
    overflow. *)
Definition mul (x y : spec_float) : spec_float := SFmul prec emax x y.

Definition is_finite (x : spec_float) : bool :=
  match x with
  | S754_zero _ | S754_finite _ _ _ => true
  | S754_infinity _ | S754_nan => false
  end.

(** The integer part of a finite float, rounding toward zero. *)
Definition trunc (x : spec_float) : Z :=
  match x with
  | S754_finite s m e =>
      let n := Z.shiftl (Z.pos m) e in if s then - n else n
  | _ => 0
  end.

(** The rational a finite float stands for. *)
Definition value (x : spec_float) : option Q :=
  match x with
  | S754_zero _ => Some 0%Q
  | S754_finite s m e =>
      let q := if decide (0 ≤ e)
               then inject_Z (Z.pos m * 2 ^ e)
               else Qmake (Z.pos m) (Z.to_pos (2 ^ (- e))) in
      Some (if s then Qopp q else q)
  | S754_infinity _ | S754_nan => None
  end.

End Float64.

(** A value that is either an [int] or a [float]. *)
Inductive number : Type :=
| Int (z : Z)
| Float (f : spec_float).

(** [float(z)] as a number. *)
Definition py_float (z : Z) : number := Float (Float64.of_Z z).

(** [x * k] for an [int] literal [k]: exact on an [int]; on a [float] the
    literal is converted and the product rounded. *)
Definition py_mul (x : number) (k : Z) : number :=
  match x with
  | Int z => Int (z * k)
  | Float f => Float (Float64.mul f (Float64.of_Z k))
  end.

(** [int(x)]: the identity on an [int]; on a [float] the integer part,
    [OverflowError] for an infinity and [ValueError] for a NaN. *)
Definition py_int (x : number) : result Z :=
  match x with
  | Int z => Return z
  | Float (S754_infinity _) => Raise OverflowError
  | Float S754_nan => Raise ValueError
  | Float f => Return (Float64.trunc f)
  end.

(** [x * k] where [x] may be [None]: multiplying [None] raises [TypeError]. *)
Definition mul_optional (x : option number) (k : Z) : result number :=
  match x with
  | Some a => Return (py_mul a k)
  | None => Raise TypeError
  end.

(** [int(x)] where [x] may be [None]: [int(None)] raises [TypeError]. *)
Definition int_optional (x : option number) : result Z :=
  match x with
  | Some a => py_int a
  | None => Raise TypeError
  end.

(** ** [chess.engine.Limit] and the side to move *)

Definition WHITE : bool := true.
Definition BLACK : bool := false.

Record Limit : Type := {
  time : option number;
  white_clock : option number;
  black_clock : option number;
  white_inc : option number;
  black_inc : option number
}.

(** A fixed allotment of [a] seconds per move. *)
Definition fixed_allotment (a : number) : Limit :=
  {| time := Some a; white_clock := None; black_clock := None;
     white_inc := None; black_inc := None |}.

(** Remaining clock and increment for each side. *)
Definition clock_increment (wc wi bc bi : number) : Limit :=
  {| time := None; white_clock := Some wc; black_clock := Some bc;
     white_inc := Some wi; black_inc := Some bi |}.

(** ** The effective time control (lines 124-133 of [Engine.search]) *)

(** The body of the [except Exception] handler for one side:
    [max(int(clock * 10) + int(inc) * 1000 - 300, 96)]. *)
Definition clock_time_control (clock inc : option number) : result number :=
  result_bind (mul_optional clock 10) (λ c10,
  result_bind (py_int c10) (λ c,
  result_bind (int_optional inc) (λ i,
  Return (Int (Z.max (c + i * 1000 - 300) 96))))).

(** [try: time_limit.time * 1000  except Exception: ...] with [turn] the
    value of [board.turn]. *)
Definition time_control (turn : bool) (time_limit : Limit) : result number :=
  match mul_optional (time time_limit) 1000 with
  | Return t => Return t
  | Raise _ =>
      if decide (turn = WHITE)
      then clock_time_control (white_clock time_limit) (white_inc time_limit)
      else clock_time_control (black_clock time_limit) (black_inc time_limit)
  end.

(** The formula of the specification, over the rationals, for comparison
    with [clock_time_control]: [max(c*10 + i*1000 - 300, 96)]. *)
Definition spec_time_control (c i : Q) : Q :=
  let v := (c * 10 + i * 1000 - 300)%Q in
  if Qle_bool 96 v then v else 96%Q.

(** ** Python text operations *)

Module Text.

(** [str.isspace] on one character, for code points below 256:
    U+0009..U+000D, U+001C..U+001F, U+0020, U+0085 and U+00A0. *)
Definition is_space (c : ascii) : bool :=
  let n := N_of_ascii c in
  ((9 <=? n) && (n <=? 13) || (28 <=? n) && (n <=? 32)
   || (n =? 133) || (n =? 160))%N.

(** [s.startswith(prefix)]. *)
Fixpoint startswith (s prefix : string) : bool :=
  match prefix with
  | "" => true
  | String p prefix' =>
      match s with
      | "" => false
      | String c s' => if decide (c = p) then startswith s' prefix' else false
      end
  end.

(** [s[n:]] for [n >= 0]. *)
Fixpoint slice_from (n : nat) (s : string) : string :=
  match n, s with
  | O, _ => s
  | S _, "" => ""
  | S n', String _ s' => slice_from n' s'
  end.

Fixpoint lstrip (s : string) : string :=
  match s with
  | "" => ""
  | String c s' => if is_space c then lstrip s' else s
  end.

Definition rstrip (s : string) : string :=
  String.rev (lstrip (String.rev s)).

(** [s.strip()]. *)
Definition strip (s : string) : string := rstrip (lstrip s).

Definition LF : ascii := "010"%char.
Definition CR : ascii := "013"%char.

(** Text-mode reading with the default [newline=None]: ["\r\n"] and a lone
    ["\r"] are both delivered as ["\n"]. *)
Fixpoint universal_newlines (s : string) : string :=
  match s with
  | "" => ""
  | String c s' =>
      if decide (c = CR) then
        match s' with
        | String c' s'' =>
            if decide (c' = LF) then String LF (universal_newlines s'')
            else String LF (universal_newlines s')
        | "" => String LF ""
        end
      else String c (universal_newlines s')
  end.

(** Cut a text after every ["\n"], keeping the terminators. *)
Fixpoint split_keepends (s : string) : list string :=
  match s with
  | "" => []
  | String c s' =>
      if decide (c = LF) then String c "" :: split_keepends s'
      else match split_keepends s' with
           | [] => [String c ""]
           | l :: ls => String c l :: ls
           end
  end.

(** [f.readlines()] on a file opened for reading in text mode. *)
Definition readlines (content : string) : list string :=
  split_keepends (universal_newlines content).

(** ["\n".join(lines)]. *)
Fixpoint join_lines (lines : list string) : string :=
  match lines with
  | [] => ""
  | [l] => l
  | l :: ls => l +:+ String LF (join_lines ls)
  end.

Fixpoint endswith_newline (s : string) : bool :=
  match s with
  | "" => false
  | String c "" => bool_decide (c = LF)
  | String _ s' => endswith_newline s'
  end.

(** Every line of [s] ends with a newline. *)
Definition newline_terminated (s : string) : bool :=
  forallb endswith_newline (split_keepends s).

End Text.

(** ** Sequences *)

(** [range(start, stop, -1)]: [start, start-1, ...], down to but excluding
    [stop]. *)
Definition range_down (start stop : Z) : list Z :=
  (λ k : nat, start - Z.of_nat k) <$> seq 0 (Z.to_nat (start - stop)).

(** [l[i]]: a negative index counts from the end, an index outside the list
    raises [IndexError]. *)
Definition getitem {A} (l : list A) (i : Z) : result A :=
  let j := if decide (i < 0) then i + Z.of_nat (length l) else i in
  if decide (j < 0) then Raise IndexError
  else match l !! Z.to_nat j with
       | Some x => Return x
       | None => Raise IndexError
       end.

(** ** Extraction of the move token (lines 145-146) *)

Definition PLAYED : string := "COMPUTER PLAYED".
Definition RESIGN : string := "RESIGN".

(** The generator expression
    [(out[i][16:].strip() for i in indices if out[i].startswith(PLAYED))]
    consumed by [next(..., None)]: the first element it yields, else [None]. *)
Fixpoint next_played (out : list string) (indices : list Z)
  : result (option string) :=
  match indices with
  | [] => Return None
  | i :: indices' =>
      result_bind (getitem out i) (λ line,
        if Text.startswith line PLAYED
        then Return (Some (Text.strip (Text.slice_from 16 line)))
        else next_played out indices')
  end.

Definition parse_move (out : list string) : result (option string) :=
  next_played out (range_down (Z.of_nat (length out) - 1) 0).

(** The token of one line, when the line is a played-move line. *)
Definition played_token (line : string) : option string :=
  if Text.startswith line PLAYED
  then Some (Text.strip (Text.slice_from 16 line))
  else None.

(** ** [chess.engine.PlayResult] *)

Module PlayResult.
Record t (Move : Type) : Type := mk {
  move : option Move;
  ponder : option Move;
  draw_offered : bool;
  resigned : bool
}.
Arguments mk {Move}.
Arguments move {Move}.
Arguments ponder {Move}.
Arguments draw_offered {Move}.
Arguments resigned {Move}.
End PlayResult.

(** [PlayResult(move, ponder, resigned=...)], with the constructor's default
    [draw_offered=False]. *)
Definition PlayResult {Move} (move ponder : option Move) (resigned : bool)
  : PlayResult.t Move :=
  PlayResult.mk move ponder false resigned.

(** ** The instance state of [Engine] *)

Record Engine : Type := {
  engine_name : string;
  move : Z
}.

(** [Engine.__init__]: [MinimalEngine.__init__] names the engine after its
    class unless a name is given; then the counter starts at zero. *)
Definition Engine_init (name : option string) : Engine :=
  {| engine_name := default "Engine" name; move := 0 |}.

(** [os.path.join(a, b)] on a POSIX system, for a relative [b]. *)
Definition path_join (a b : string) : string := a +:+ "/" +:+ b.

Definition file_in (n : Z) : string :=
  path_join "temp" ("input-" +:+ pretty n +:+ ".txt").
Definition file_out (n : Z) : string :=
  path_join "temp" ("output-" +:+ pretty n +:+ ".txt").

(** The [en_passant] argument of [Board.fen]. *)
Inductive EnPassantSpec : Set := ep_legal | ep_fen | ep_xfen.

(** ** The operating system

    What the system answers on one call of [search]: the exception, if
    any, raised by [os.makedirs], by opening the request file for writing,
    and by opening and reading the response file. *)
Record OS : Type := {
  makedirs_error : option exn;
  open_write_error : option exn;
  read_error : option exn
}.

(** A system on which all three succeed. *)
Definition os_ok : OS :=
  {| makedirs_error := None; open_write_error := None; read_error := None |}.

(** ** The external-process driver *)

Section Driver.

(** python-chess: the board, its moves and the notation parsers.
    [parse_san] and [parse_uci] answer [None] where the library raises a
    [ValueError] (invalid, illegal or ambiguous notation). *)
Context {Board Move : Type}.
Variable turn : Board → bool.
Variable fen : Board → EnPassantSpec → string.
Variable parse_san : Board → string → option Move.
Variable parse_uci : Board → string → option Move.
Variable push : Board → Move → Board.

(** The system's answers on this call. *)
Variable os : OS.

(** [~/bin/engine]: what it prints on standard output for a given standard
    input. *)
Variable backend : string → string.

(** [str] on a float. *)
Variable float_str : spec_float → string.

(** What a call works on: the instance, the caller's board and the files. *)
Record State : Type := {
  self : Engine;
  board : Board;
  fs : gmap string string
}.

(** Computations that update the state and return or raise. *)
Definition M (A : Type) : Type := State → State * result A.

Definition ret {A} (a : A) : M A := λ st, (st, Return a).
Definition raise {A} (e : exn) : M A := λ st, (st, Raise e).
Definition bind {A B} (m : M A) (k : A → M B) : M B :=
  λ st, match m st with
        | (st', Return a) => k a st'
        | (st', Raise e) => (st', Raise e)
        end.
Definition lift {A} (r : result A) : M A := λ st, (st, r).
Definition gets {A} (f : State → A) : M A := λ st, (st, Return (f st)).
Definition modify (f : State → State) : M unit := λ st, (f st, Return tt).

(** [try: body  except e: handler]. *)
Definition try_except {A} (body : M A) (e : exn) (handler : M A) : M A :=
  λ st, match body st with
        | (st', Raise e') => if decide (e' = e) then handler st'
                             else (st', Raise e')
        | r => r
        end.

Local Instance M_ret : MRet M := @ret.
Local Instance M_bind : MBind M := λ A B k m, bind m k.

(** [str(time_control)] inside the f-string. *)
Definition number_str (x : number) : string :=
  match x with
  | Int z => pretty z
  | Float q => float_str q
  end.

Definition NL : string := String Text.LF "".

(** The text written to the request file (lines 136-139). *)
Definition request (time_control : number) (b : Board) : string :=
  ("setoption time_limit " +:+ number_str time_control +:+ NL)
  +:+ ("setoption table_size 69696983" +:+ NL)
  +:+ ("go " +:+ fen b ep_fen +:+ NL +:+ "quit").

(** [os.makedirs('temp', exist_ok=True)]: it raises what the system
    says, else the directory is there afterwards; directories are not
    tracked among the files. *)
Definition makedirs (path : string) : M unit :=
  match makedirs_error os with
  | Some e => raise e
  | None => ret tt
  end.

Definition set_move (n : Z) : M unit :=
  modify (λ st, {| self := {| engine_name := engine_name (self st);
                              move := n |};
                   board := board st; fs := fs st |}).

(** [with open(path, 'w') as f: f.write(text)]. *)
Definition write_file (path text : string) : M unit :=
  match open_write_error os with
  | Some e => raise e
  | None =>
      modify (λ st, {| self := self st; board := board st;
                       fs := <[path := text]> (fs st) |})
  end.

(** [with open(path) as f: f.readlines()]: opening or decoding raises
    what the system says. *)
Definition read_lines (path : string) : M (list string) :=
  match read_error os with
  | Some e => raise e
  | None =>
      λ st, match fs st !! path with
            | Some content => (st, Return (Text.readlines content))
            | None => (st, Raise FileNotFoundError)
            end
  end.

(** [os.system(f'~/bin/engine < {file_in} > {file_out}')]: the shell
    creates the output file and the backend fills it from the input
    file; the exit status is dropped. *)
Definition os_system (path_in path_out : string) : M unit :=
  λ st, match fs st !! path_in with
        | Some input =>
            ({| self := self st; board := board st;
                fs := <[path_out := backend input]> (fs st) |}, Return tt)
        | None => (st, Return tt)
        end.

(** [board.push_san(move)]: the library matches a regular expression
    against its argument, which raises [TypeError] on [None]. *)
Definition push_san (token : option string) : M Move :=
  match token with
  | None => raise TypeError
  | Some san =>
      b ← gets board;
      match parse_san b san with
      | None => raise ValueError
      | Some m =>
          modify (λ st, {| self := self st; board := push (board st) m;
                           fs := fs st |});;
          mret m
      end
  end.

(** [board.push_uci(move)]. *)
Definition push_uci (token : option string) : M Move :=
  match token with
  | None => raise TypeError
  | Some uci =>
      b ← gets board;
      match parse_uci b uci with
      | None => raise ValueError
      | Some m =>
          modify (λ st, {| self := self st; board := push (board st) m;
                           fs := fs st |});;
          mret m
      end
  end.

(** Lines 148-153: the resignation sentinel, else the token is pushed as
    SAN, and as UCI when that raises [ValueError]. *)
Definition interpret (move : option string) : M (PlayResult.t Move) :=
  if decide (move = Some RESIGN)
  then mret (PlayResult None None true)
  else
    try_except
      (m ← push_san move; mret (PlayResult (Some m) None false))
      ValueError
      (m ← push_uci move; mret (PlayResult (Some m) None false)).

(** [Engine.search(self, board, time_limit, ponder, draw_offered)]. *)
Definition search (time_limit : Limit) (ponder draw_offered : bool)
  : M (PlayResult.t Move) :=
  makedirs "temp";;
  n ← gets (λ st, move (self st));
  let file_in := file_in n in
  let file_out := file_out n in
  set_move (n + 1);;
  b ← gets board;
  time_control ← lift (time_control (turn b) time_limit);
  write_file file_in (request time_control b);;
  os_system file_in file_out;;
  out ← read_lines file_out;
  move ← lift (parse_move out);
  interpret move.

(** *** States named in the statements below *)

(** The state once the file names are chosen: the counter is one up. *)
Definition counted (st : State) : State :=
  {| self := {| engine_name := engine_name (self st);
                move := move (self st) + 1 |};
     board := board st;
     fs := fs st |}.

(** The state once the request is written and the backend has answered:
    the counter is one up and both files of the call exist. *)
Definition answered (st : State) (time_control : number) : State :=
  let n := move (self st) in
  let text := request time_control (board st) in
  {| self := self (counted st);
     board := board st;
     fs := <[file_out n := backend text]> (<[file_in n := text]> (fs st)) |}.

(** The lines of the response to that request. *)
Definition response_lines (st : State) (time_control : number)
  : list string :=
  Text.readlines (backend (request time_control (board st))).

(** The state with move [m] pushed on the board. *)
Definition pushed (st : State) (m : Move) : State :=
  {| self := self st; board := push (board st) m; fs := fs st |}.

End Driver.

(** ** A small board library to run the driver on

    A stand-in for python-chess with three moves, enough to evaluate
    [search] on concrete requests and responses.  A move is kept as its
    compact (UCI) text. *)

Module Fixture.

Record Board : Type := {
  white_to_move : bool;
  move_stack : list string
}.

Definition initial : Board :=
  {| white_to_move := true; move_stack := [] |}.
Definition after_e4 : Board :=
  {| white_to_move := false; move_stack := ["e2e4"] |}.

Definition turn (b : Board) : bool := white_to_move b.

Definition fen (b : Board) (ep : EnPassantSpec) : string :=
  if white_to_move b
  then "rnbqkbnr/pppppppp/8/8/8/8/PPPPPPPP/RNBQKBNR w KQkq - 0 1"
  else match ep with
       | ep_fen => "rnbqkbnr/pppppppp/8/8/4P3/8/PPPP1PPP/RNBQKBNR b KQkq e3 0 1"
       | _ => "rnbqkbnr/pppppppp/8/8/4P3/8/PPPP1PPP/RNBQKBNR b KQkq - 0 1"
       end.

Definition legal_moves (b : Board) : list string :=
  if white_to_move b then ["e2e4"; "g1f3"] else ["e7e5"].

Definition parse_uci (b : Board) (uci : string) : option string :=
  if decide (uci ∈ legal_moves b) then Some uci else None.

Definition san (b : Board) (m : string) : string :=
  if decide (m = "e2e4") then "e4"
  else if decide (m = "g1f3") then "Nf3"
  else if decide (m = "e7e5") then "e5"
  else m.

Definition pawn_move (m : string) : bool :=
  bool_decide (m ∈ ["e2e4"; "e7e5"]).

(** SAN, and for pawn moves also the fully specified squares, as the
    library's SAN pattern admits them. *)
Definition parse_san (b : Board) (text : string) : option string :=
  head (filter (λ m, san b m = text ∨ (pawn_move m ∧ m = text))
               (legal_moves b)).

Definition push (b : Board) (m : string) : Board :=
  {| white_to_move := negb (white_to_move b);
     move_stack := move_stack b ++ [m] |}.

(** [str] on a float with no fractional part, as in [str(1000.0)]. *)
Definition float_str (f : spec_float) : string :=
  pretty (Float64.trunc f) +:+ ".0".

(** The driver over this library, with a backend that prints [response]
    whatever it is asked. *)
Definition search (response : string) :=
  search turn fen parse_san parse_uci push os_ok (λ _, response) float_str.

Definition request (time_control : number) (b : Board) : string :=
  request fen float_str time_control b.

Definition start (b : Board) : State :=
  {| self := Engine_init None; board := b; fs := ∅ |}.

Definition lines (ls : list string) : string :=
  foldr (λ l acc, l +:+ NL +:+ acc) "" ls.

End Fixture.

(** ** The notification relay [FillerEngine] *)

Module FillerEngine.

(** The Python values that reach the relay. *)
Inductive value : Type :=
| VNone
| VBool (b : bool)
| VInt (z : Z)
| VStr (s : string)
| VDict (items : list (string * option string))
| VObject (ref : nat).

Definition of_optional_str (name : option string) : value :=
  match name with
  | Some s => VStr s
  | None => VNone
  end.

(** The instance attributes set by [__init__]; [main_engine] is a
    reference to the owner. *)
Record t : Type := {
  id : list (string * option string);
  name : option string;
  main_engine : nat
}.

(** [FillerEngine.__init__(self, main_engine, name=None)]. *)
Definition init (main_engine : nat) (name : option string) : t :=
  {| id := [("name", name)];
     name := name;
     main_engine := main_engine |}.

(** The instance dictionary. *)
Definition instance_dict (self : t) : list (string * value) :=
  [("id", VDict (id self));
   ("name", of_optional_str (name self));
   ("main_engine", VObject (main_engine self))].

Fixpoint dict_get {V} (d : list (string * V)) (key : string) : option V :=
  match d with
  | [] => None
  | (k, v) :: d' => if decide (k = key) then Some v else dict_get d' key
  end.

(** One call of the owner's [notify]. *)
Record NotifyCall : Type := {
  receiver : nat;
  method_name : string;
  args : list value;
  kwargs : list (string * value)
}.

(** What an attribute access on the relay evaluates to. *)
Inductive attribute : Type :=
| Stored (v : value)
| OnType (attr : string)
| Forwarder (main_engine : nat) (method_name : string).

(** What calling an attribute of the relay comes to: the calls of the
    owner's [notify] that were entered and the value returned or the
    exception raised; or, for an attribute found on the class or on
    [object], that attribute's own behaviour, which is the interpreter's
    and enters no [notify]. *)
Inductive outcome : Type :=
| Done (calls : list NotifyCall) (r : result value)
| TypeAttribute (attr : string).

(** [notify] is declared as [notify(self, method_name, *args, **kwargs)]
    and called as [main_engine.notify(method_name, *args, **kwargs)]: a
    keyword named [self] or [method_name] meets a parameter that already
    has its value, and the call raises [TypeError] before the body is
    entered. *)
Definition keyword_clash (kwargs : list (string * value)) : bool :=
  bool_decide ("self" ∈ kwargs.*1 ∨ "method_name" ∈ kwargs.*1).

Section Relay.

(** The names the interpreter finds on the class or on [object] (such
    as [__init__] or [__class__]). *)
Variable on_type : string → bool.

(** The owner's [notify] method, with the signature above: what it
    returns or raises. *)
Variable notify :
  nat → string → list value → list (string * value) → result value.

(** [getattr(self, attr)]: ordinary lookup first; [__getattr__] only
    when that finds nothing, and it returns the closure [method]. *)
Definition getattr (self : t) (attr : string) : attribute :=
  match dict_get (instance_dict self) attr with
  | Some v => Stored v
  | None =>
      if on_type attr then OnType attr
      else Forwarder (main_engine self) attr
  end.

(** Calling [self.<attr>] with positional and keyword arguments.  No
    stored value is callable: [None], a [str], a [dict], and the owner,
    whose classes define no [__call__]. *)
Definition invoke (self : t) (attr : string)
    (args : list value) (kwargs : list (string * value)) : outcome :=
  match getattr self attr with
  | Stored _ => Done [] (Raise TypeError)
  | OnType a => TypeAttribute a
  | Forwarder owner method_name =>
      if keyword_clash kwargs then Done [] (Raise TypeError)
      else Done [{| receiver := owner; method_name := method_name;
                    args := args; kwargs := kwargs |}]
                (notify owner method_name args kwargs)
  end.

End Relay.

(** [MinimalEngine.notify(self, method_name, *args, **kwargs)]: the body
    is [pass]. *)
Definition MinimalEngine_notify
    (self : nat) (method_name : string)
    (args : list value) (kwargs : list (string * value)) : result value :=
  if keyword_clash kwargs then Raise TypeError else Return VNone.

(** The attributes of a [FillerEngine] instance that ordinary lookup
    finds on the class and on [object] (CPython 3.11). *)
Definition type_attributes : list string :=
  ["__class__"; "__delattr__"; "__dict__"; "__dir__"; "__doc__"; "__eq__";
   "__format__"; "__ge__"; "__getattr__"; "__getattribute__";
   "__getstate__"; "__gt__"; "__hash__"; "__init__"; "__init_subclass__";
   "__le__"; "__lt__"; "__module__"; "__ne__"; "__new__"; "__reduce__";
   "__reduce_ex__"; "__repr__"; "__setattr__"; "__sizeof__"; "__str__";
   "__subclasshook__"; "__weakref__"].

Definition class_body (attr : string) : bool :=
  bool_decide (attr ∈ type_attributes).

End FillerEngine.

(** ** Successive calls on one driver *)

Section Calls.

Context {Board Move : Type}.
Variable turn : Board → bool.
Variable fen : Board → EnPassantSpec → string.
Variable parse_san : Board → string → option Move.
Variable parse_uci : Board → string → option Move.
Variable push : Board → Move → Board.
Variable float_str : spec_float → string.

(** One call of [search] as the harness makes it: the board it passes,
    the budget and flags, and what the system and the backend answer on
    that run. *)
Record Call : Type := {
  call_board : Board;
  call_limit : Limit;
  call_ponder : bool;
  call_draw_offered : bool;
  call_os : OS;
  call_backend : string → string
}.

(** The instance and the files after the calls of [calls], made in order;
    an exception raised by one call does not stop the harness. *)
Fixpoint run_calls (calls : list Call) (st : State) : State :=
  match calls with
  | [] => st
  | c :: calls' =>
      run_calls calls'
        (fst (search turn fen parse_san parse_uci push (call_os c)
                (call_backend c) float_str (call_limit c) (call_ponder c)
                (call_draw_offered c)
                {| self := self st; board := call_board c; fs := fs st |}))
  end.

End Calls.

(** ** The example strategies *)

(** [l.sort(key=key)] on string keys: a stable sort, ascending by [<] on
    [str] (code point order).  Insertion from the right, an element going
    in front of the first one whose key is not smaller than its own. *)
Fixpoint insert_by_key {A} (key : A → string) (x : A) (l : list A) : list A :=
  match l with
  | [] => [x]
  | y :: l' =>
      if String.ltb (key y) (key x) then y :: insert_by_key key x l'
      else x :: l
  end.

Definition sort_by_key {A} (key : A → string) (l : list A) : list A :=
  foldr (insert_by_key key) [] l.

(** [random.choice(seq)]: [IndexError] on an empty sequence, else the
    element at a drawn position below the length; [draw] stands for the
    generator's output. *)
Definition random_choice {A} (draw : nat) (seq : list A) : result A :=
  match seq with
  | [] => Raise IndexError
  | _ => getitem seq (Z.of_nat (draw mod length seq))
  end.

Module RandomMove.
Section Strategy.
Context {Board Move : Type}.
Variable legal_moves : Board → list Move.

(** [RandomMove.search(self, board, *args)]. *)
Definition search (draw : nat) (board : Board) : result (PlayResult.t Move) :=
  result_bind (random_choice draw (legal_moves board)) (λ m,
  Return (PlayResult (Some m) None false)).

End Strategy.
End RandomMove.

Module Alphabetical.
Section Strategy.
Context {Board Move : Type}.
Variable legal_moves : Board → list Move.
Variable san : Board → Move → string.

(** [Alphabetical.search(self, board, *args)]. *)
Definition search (board : Board) : result (PlayResult.t Move) :=
  let moves := sort_by_key (san board) (legal_moves board) in
  result_bind (getitem moves 0) (λ m,
  Return (PlayResult (Some m) None false)).

End Strategy.
End Alphabetical.

Module FirstMove.
Section Strategy.
Context {Board Move : Type}.
Variable legal_moves : Board → list Move.

(** [str(move)], the UCI text of a move. *)
Variable str : Move → string.

(** [FirstMove.search(self, board, *args)]. *)
Definition search (board : Board) : result (PlayResult.t Move) :=
  let moves := sort_by_key str (legal_moves board) in
  result_bind (getitem moves 0) (λ m,
  Return (PlayResult (Some m) None false)).

End Strategy.
End FirstMove.

(** Every character of [s] is white space. *)
Fixpoint all_space (s : string) : bool :=
  match s with
  | "" => true
  | String c s' => Text.is_space c && all_space s'
  end.

(** [s] is one line: it has no line feed and no carriage return. *)
Fixpoint one_line (s : string) : bool :=
  match s with
  | "" => true
  | String c s' =>
      negb (bool_decide (c = Text.LF)) && negb (bool_decide (c = Text.CR))
      && one_line s'
  end.

(** [s] is not empty and does not begin with white space. *)
Definition nonspace_head (s : string) : bool :=
  match s with
  | "" => false
  | String c _ => negb (Text.is_space c)
  end.

(** [s] is not empty and neither begins nor ends with white space. *)
Definition nonspace_ends (s : string) : bool :=
  nonspace_head s && nonspace_head (String.rev s).

(** * Properties *)

(** ** Time control *)

Section TimeControl.

Lemma py_int_finite (f : spec_float) :
  Float64.is_finite f = true → py_int (Float f) = Return (Float64.trunc f).
Proof. by destruct f. Qed.

(** [int] returns exactly on the finite numbers. *)
Lemma py_int_returns (x : number) (z : Z) :
  py_int x = Return z →
  match x with
  | Int z' => z = z'
  | Float f => Float64.is_finite f = true ∧ z = Float64.trunc f
  end.
Proof. destruct x as [z'|[]]; simpl; intros [=]; by subst. Qed.

(** [int] raises on an infinity and on a NaN only. *)
Lemma py_int_raises (x : number) (e : exn) :
  py_int x = Raise e → e = OverflowError ∨ e = ValueError.
Proof. destruct x as [z|[]]; simpl; intros [= <-]; auto. Qed.

(** The handler's value for one side whose fields are both present. *)
Lemma clock_time_control_Some (c i : number) (zc zi : Z) :
  py_int (py_mul c 10) = Return zc →
  py_int i = Return zi →
  clock_time_control (Some c) (Some i) =
    Return (Int (Z.max (zc + zi * 1000 - 300) 96)).
Proof.
  intros Hc Hi. unfold clock_time_control. simpl. rewrite Hc. simpl.
  by rewrite Hi.
Qed.

(** Whatever the handler returns is an [int] not below 96. *)
Lemma clock_time_control_floor (clock inc : option number) (tc : number) :
  clock_time_control clock inc = Return tc → ∃ z, tc = Int z ∧ 96 ≤ z.
Proof.
  unfold clock_time_control.
  destruct clock as [c|]; [|done]. simpl.
  destruct (py_int (py_mul c 10)) as [zc|]; [|done]. simpl.
  destruct inc as [i|]; [|done]. simpl.
  destruct (py_int i) as [zi|]; [|done]. simpl.
  intros [= <-]. eexists. split; [done|]. lia.
Qed.

(** A populated [time] field decides the time control by itself. *)
Lemma time_control_time (turn : bool) (tl : Limit) (a : number) :
  time tl = Some a → time_control turn tl = Return (py_mul a 1000).
Proof. intros H. unfold time_control. by rewrite H. Qed.

End TimeControl.

(** ** Scanning the response *)

Section Scan.

Lemma range_down_empty (start stop : Z) :
  start ≤ stop → range_down start stop = [].
Proof.
  intros H. unfold range_down.
  by replace (Z.to_nat (start - stop)) with 0%nat by lia.
Qed.

Lemma range_down_cons (start stop : Z) :
  stop < start →
  range_down start stop = start :: range_down (start - 1) stop.
Proof.
  intros H. unfold range_down.
  replace (Z.to_nat (start - stop)) with (S (Z.to_nat (start - 1 - stop)))
    by lia.
  rewrite <- cons_seq. rewrite fmap_cons. f_equal; [lia|].
  rewrite <- fmap_S_seq, <- list_fmap_compose.
  apply list_fmap_ext. intros _ k _. simpl. lia.
Qed.

Lemma elem_of_range_down (i start stop : Z) :
  i ∈ range_down start stop → stop < i ≤ start.
Proof.
  unfold range_down. intros (k & -> & Hk)%list_elem_of_fmap.
  apply elem_of_seq in Hk. lia.
Qed.

Lemma getitem_nat {A} (l : list A) (k : nat) :
  getitem l (Z.of_nat k) = from_option Return (Raise IndexError) (l !! k).
Proof.
  unfold getitem. cbv zeta.
  destruct (decide (Z.of_nat k < 0)) as [?|_]; [lia|].
  destruct (decide (Z.of_nat k < 0)) as [?|_]; [lia|].
  rewrite Nat2Z.id. by destruct (l !! k).
Qed.

(** The generator only looks at the lines its indices name. *)
Lemma next_played_ext (out out' : list string) (indices : list Z) :
  (∀ i, i ∈ indices → getitem out i = getitem out' i) →
  next_played out indices = next_played out' indices.
Proof.
  induction indices as [|i indices IH]; intros Hext; [done|].
  simpl. rewrite <- (Hext i) by left.
  destruct (getitem out i) as [line|e]; simpl; [|done].
  destruct (Text.startswith line PLAYED); [done|].
  apply IH. intros j Hj. apply Hext. by right.
Qed.

Lemma next_played_tail (first : string) (rest : list string) :
  next_played (first :: rest) (range_down (Z.of_nat (length rest)) 0) =
    Return (head (omap played_token (reverse rest))).
Proof.
  induction rest as [|y rest IH] using rev_ind.
  - by rewrite range_down_empty.
  - rewrite length_app, Nat.add_1_r, range_down_cons by lia.
    rewrite reverse_snoc. simpl next_played.
    rewrite getitem_nat. simpl.
    rewrite lookup_app_r, Nat.sub_diag by done. simpl.
    unfold played_token at 1.
    destruct (Text.startswith y PLAYED); [done|].
    replace (Z.of_nat (S (length rest)) - 1) with (Z.of_nat (length rest))
      by lia.
    etrans; [|exact IH]. apply next_played_ext.
    intros i Hi%elem_of_range_down.
    replace i with (Z.of_nat (Z.to_nat i)) by lia.
    rewrite !getitem_nat.
    destruct (Z.to_nat i) as [|k] eqn:Hk; [lia|]. simpl.
    by rewrite lookup_app_l by lia.
Qed.

(** [parse_move] yields the token of the last played line among the
    lines after the first; the first line is never looked at. *)
Lemma parse_move_tail (first : string) (rest : list string) :
  parse_move (first :: rest) =
    Return (head (omap played_token (reverse rest))).
Proof.
  unfold parse_move. rewrite <- (next_played_tail first). f_equal.
  simpl length. f_equal. lia.
Qed.

Lemma parse_move_nil : parse_move [] = Return None.
Proof. reflexivity. Qed.

(** The last played line wins, wherever it stands after the first line. *)
Lemma parse_move_last (first line token : string)
    (before after : list string) :
  played_token line = Some token →
  Forall (λ l, played_token l = None) after →
  parse_move (first :: before ++ line :: after) = Return (Some token).
Proof.
  intros Hline Hafter. rewrite parse_move_tail. f_equal.
  rewrite reverse_app, reverse_cons, omap_app, omap_app. simpl.
  rewrite Hline.
  assert (omap played_token (reverse after) = []) as ->; [|done].
  apply Forall_reverse in Hafter.
  induction Hafter as [|l ls Hl _ IH]; [done|]. simpl. by rewrite Hl.
Qed.

(** Without any played line there is no token. *)
Lemma parse_move_none (out : list string) :
  Forall (λ l, Text.startswith l PLAYED = false) out →
  parse_move out = Return None.
Proof.
  destruct out as [|first rest]; [done|].
  intros Hall. apply Forall_cons in Hall as [_ Hrest].
  rewrite parse_move_tail. f_equal.
  apply Forall_reverse in Hrest.
  induction Hrest as [|l ls Hl _ IH]; [done|].
  simpl. unfold played_token at 1. by rewrite Hl.
Qed.

(** What [parse_move] does never raises. *)
Lemma parse_move_returns (out : list string) :
  ∃ token, parse_move out = Return token.
Proof.
  destruct out; [by eexists|]. rewrite parse_move_tail. by eexists.
Qed.

End Scan.

(** ** The driver, step by step *)

Section DriverFacts.

Context {Board Move : Type}.
Variable turn : Board → bool.
Variable fen : Board → EnPassantSpec → string.
Variable parse_san : Board → string → option Move.
Variable parse_uci : Board → string → option Move.
Variable push : Board → Move → Board.
Variable float_str : spec_float → string.

(** [search] on a system whose calls succeed. *)
Local Abbreviation search backend :=
  (search turn fen parse_san parse_uci push os_ok backend float_str).
Local Abbreviation interpret := (interpret parse_san parse_uci push).
Local Abbreviation request := (request fen float_str).
Local Abbreviation answered backend := (answered fen backend float_str).
Local Abbreviation response_lines backend :=
  (response_lines fen backend float_str).
Local Abbreviation pushed := (pushed push).

Lemma string_length_app (s t : string) :
  String.length (s +:+ t) = (String.length s + String.length t)%nat.
Proof.
  induction s as [|a s IH]; [done|].
  change (String a s +:+ t) with (String a (s +:+ t)). simpl.
  by rewrite IH.
Qed.

Lemma string_app_inj_r (t s1 s2 : string) : s1 +:+ t = s2 +:+ t → s1 = s2.
Proof.
  revert s2. induction s1 as [|a s1 IH]; intros [|b s2] H.
  - done.
  - apply (f_equal String.length) in H.
    rewrite !string_length_app in H. simpl in H. lia.
  - apply (f_equal String.length) in H.
    rewrite !string_length_app in H. simpl in H. lia.
  - change (String a (s1 +:+ t) = String b (s2 +:+ t)) in H.
    injection H as -> H. f_equal. by apply IH.
Qed.

Lemma file_in_inj (n m : Z) : file_in n = file_in m → n = m.
Proof.
  unfold file_in, path_join. intros H.
  do 3 apply (inj (String.app _)) in H.
  by apply string_app_inj_r, (inj pretty) in H.
Qed.

Lemma file_out_inj (n m : Z) : file_out n = file_out m → n = m.
Proof.
  unfold file_out, path_join. intros H.
  do 3 apply (inj (String.app _)) in H.
  by apply string_app_inj_r, (inj pretty) in H.
Qed.

Lemma file_in_ne_out (n m : Z) : file_in n ≠ file_out m.
Proof. unfold file_in, file_out, path_join. intros H. discriminate H. Qed.

(** A budget without the fields the side to move needs stops the call
    after the counter is advanced, before anything is written. *)
Lemma search_raise backend (tl : Limit) (p d : bool) (st : State) (e : exn) :
  time_control (turn (board st)) tl = Raise e →
  search backend tl p d st = (counted st, Raise e).
Proof.
  intros H. unfold search, mbind, M_bind, bind, lift. simpl.
  by rewrite H.
Qed.

(** Otherwise the request is written, the backend runs, and the token of
    its response is interpreted. *)
Lemma search_answered backend (tl : Limit) (p d : bool) (st : State)
    (tc : number) :
  time_control (turn (board st)) tl = Return tc →
  search backend tl p d st =
    match parse_move (response_lines backend st tc) with
    | Return token => interpret token (answered backend st tc)
    | Raise e => (answered backend st tc, Raise e)
    end.
Proof.
  intros H. unfold search, mbind, M_bind, bind, lift. simpl.
  rewrite H. unfold os_system, read_lines. simpl.
  rewrite lookup_insert_eq. simpl. rewrite lookup_insert_eq.
  unfold response_lines.
  by destruct (parse_move _).
Qed.

Lemma interpret_RESIGN (st : State) :
  interpret (Some RESIGN) st = (st, Return (PlayResult None None true)).
Proof. reflexivity. Qed.

Lemma interpret_None (st : State) :
  interpret None st = (st, Raise TypeError).
Proof. reflexivity. Qed.

Lemma interpret_token (token : string) (st : State) :
  token ≠ RESIGN →
  interpret (Some token) st =
    match parse_san (board st) token with
    | Some m => (pushed st m, Return (PlayResult (Some m) None false))
    | None =>
        match parse_uci (board st) token with
        | Some m => (pushed st m, Return (PlayResult (Some m) None false))
        | None => (st, Raise ValueError)
        end
    end.
Proof.
  intros Hne. unfold interpret.
  rewrite decide_False by congruence.
  unfold try_except, push_san, push_uci, mbind, M_bind, bind, gets. simpl.
  destruct (parse_san (board st) token) as [m|]; [done|]. simpl.
  by destruct (parse_uci (board st) token) as [m|].
Qed.

End DriverFacts.

(** ** What a call leaves behind *)

Section SearchFrame.

Context {Board Move : Type}.
Variable turn : Board → bool.
Variable fen : Board → EnPassantSpec → string.
Variable parse_san : Board → string → option Move.
Variable parse_uci : Board → string → option Move.
Variable push : Board → Move → Board.
Variable float_str : spec_float → string.

(** [search] on a system whose calls succeed. *)
Local Abbreviation search backend :=
  (search turn fen parse_san parse_uci push os_ok backend float_str).
Local Abbreviation interpret := (interpret parse_san parse_uci push).
Local Abbreviation request := (request fen float_str).
Local Abbreviation answered backend := (answered fen backend float_str).
Local Abbreviation response_lines backend :=
  (response_lines fen backend float_str).

(** Interpreting the token touches the board only. *)
Lemma interpret_frame (token : option string) (st : State) :
  self (fst (interpret token st)) = self st
  ∧ fs (fst (interpret token st)) = fs st.
Proof.
  destruct token as [token|]; [|done].
  destruct (decide (token = RESIGN)) as [->|Hne]; [done|].
  rewrite interpret_token by done.
  destruct (parse_san (board st) token); [done|].
  by destruct (parse_uci (board st) token).
Qed.

(** Every call advances the counter by one, whatever its outcome. *)
Lemma search_self backend (tl : Limit) (p d : bool) (st : State) :
  self (fst (search backend tl p d st)) = self (counted st).
Proof.
  destruct (time_control (turn (board st)) tl) as [tc|e] eqn:Htc.
  - rewrite search_answered with (tc := tc) by done.
    destruct (parse_move _) as [token|e]; [|done].
    by rewrite (proj1 (interpret_frame _ _)).
  - by rewrite search_raise with (e := e).
Qed.

(** Both files of the call are in place afterwards. *)
Lemma search_fs backend (tl : Limit) (p d : bool) (st : State)
    (tc : number) :
  time_control (turn (board st)) tl = Return tc →
  fs (fst (search backend tl p d st)) = fs (answered backend st tc).
Proof.
  intros Htc. rewrite search_answered with (tc := tc) by done.
  destruct (parse_move _) as [token|e]; [|done].
  by rewrite (proj2 (interpret_frame _ _)).
Qed.

Lemma search_request_file backend (tl : Limit) (p d : bool) (st : State)
    (tc : number) :
  time_control (turn (board st)) tl = Return tc →
  fs (fst (search backend tl p d st)) !! file_in (move (self st)) =
    Some (request tc (board st)).
Proof.
  intros Htc. rewrite search_fs with (tc := tc) by done. simpl.
  rewrite lookup_insert_ne by (symmetry; apply file_in_ne_out).
  apply lookup_insert_eq.
Qed.

End SearchFrame.

(** ** The driver on any system *)

Section AnySystem.

Context {Board Move : Type}.
Variable turn : Board → bool.
Variable fen : Board → EnPassantSpec → string.
Variable parse_san : Board → string → option Move.
Variable parse_uci : Board → string → option Move.
Variable push : Board → Move → Board.
Variable float_str : spec_float → string.

Local Abbreviation search_on os backend :=
  (search turn fen parse_san parse_uci push os backend float_str).
Local Abbreviation interpret := (interpret parse_san parse_uci push).
Local Abbreviation request := (request fen float_str).
Local Abbreviation answered backend := (answered fen backend float_str).
Local Abbreviation response_lines backend :=
  (response_lines fen backend float_str).

(** The call, step by step, with every place where it can stop. *)
Lemma search_steps (os : OS) backend (tl : Limit) (p d : bool) (st : State) :
  search_on os backend tl p d st =
    match makedirs_error os with
    | Some e => (st, Raise e)
    | None =>
        match time_control (turn (board st)) tl with
        | Raise e => (counted st, Raise e)
        | Return tc =>
            match open_write_error os with
            | Some e => (counted st, Raise e)
            | None =>
                match read_error os with
                | Some e => (answered backend st tc, Raise e)
                | None =>
                    match parse_move (response_lines backend st tc) with
                    | Return token => interpret token (answered backend st tc)
                    | Raise e => (answered backend st tc, Raise e)
                    end
                end
            end
        end
    end.
Proof.
  destruct os as [mk ow rd].
  unfold search, makedirs, write_file, read_lines, os_system, mbind, M_bind,
    bind, lift, raise, response_lines.
  simpl. destruct mk as [e|]; [done|]. simpl.
  destruct (time_control (turn (board st)) tl) as [tc|e]; [|done].
  destruct ow as [e|]; [done|]. simpl.
  rewrite lookup_insert_eq. simpl.
  destruct rd as [e|]; [done|]. simpl. rewrite lookup_insert_eq.
  by destruct (parse_move _).
Qed.

(** A call that [os.makedirs] lets through advances the counter by one,
    wherever it stops afterwards. *)
Lemma search_on_counted (os : OS) backend (tl : Limit) (p d : bool)
    (st : State) :
  makedirs_error os = None →
  self (fst (search_on os backend tl p d st)) = self (counted st).
Proof.
  intros Hmk. rewrite search_steps, Hmk.
  destruct (time_control (turn (board st)) tl) as [tc|e]; [|done].
  destruct (open_write_error os); [done|].
  destruct (read_error os); [done|].
  destruct (parse_move _) as [token|e]; [|done].
  by rewrite (proj1 (interpret_frame _ _ _ _ _)).
Qed.

(** The counter after a call, on any system. *)
Lemma search_on_counter (os : OS) backend (tl : Limit) (p d : bool)
    (st : State) :
  move (self (fst (search_on os backend tl p d st))) =
    move (self st) + match makedirs_error os with Some _ => 0 | None => 1 end.
Proof.
  destruct (makedirs_error os) as [e|] eqn:Hmk.
  - rewrite search_steps, Hmk. simpl. lia.
  - by rewrite search_on_counted.
Qed.

(** On any system a call reads and writes its own two files only. *)
Lemma search_on_other_path (os : OS) backend (tl : Limit) (p d : bool)
    (st : State) (path : string) :
  path ≠ file_in (move (self st)) →
  path ≠ file_out (move (self st)) →
  fs (fst (search_on os backend tl p d st)) !! path = fs st !! path.
Proof.
  intros Hin Hout. rewrite search_steps.
  destruct (makedirs_error os); [done|].
  destruct (time_control (turn (board st)) tl) as [tc|e]; [|done].
  destruct (open_write_error os); [done|].
  assert (fs (answered backend st tc) !! path = fs st !! path) as Hfs.
  { simpl. by rewrite !lookup_insert_ne. }
  destruct (read_error os); [done|].
  destruct (parse_move _) as [token|e]; [|done].
  by rewrite (proj2 (interpret_frame _ _ _ _ _)).
Qed.

(** Once the request is written, both files of the call stay in place. *)
Lemma search_on_files (os : OS) backend (tl : Limit) (p d : bool)
    (st : State) (tc : number) :
  makedirs_error os = None →
  open_write_error os = None →
  time_control (turn (board st)) tl = Return tc →
  fs (fst (search_on os backend tl p d st)) = fs (answered backend st tc).
Proof.
  intros Hmk How Htc. rewrite search_steps, Hmk, Htc, How.
  destruct (read_error os); [done|].
  destruct (parse_move _) as [token|e]; [|done].
  by rewrite (proj2 (interpret_frame _ _ _ _ _)).
Qed.

End AnySystem.

(** ** The effective time control and the counter *)

Section Budget.

Context {Board Move : Type}.
Variable turn : Board → bool.
Variable fen : Board → EnPassantSpec → string.
Variable parse_san : Board → string → option Move.
Variable parse_uci : Board → string → option Move.
Variable push : Board → Move → Board.
Variable float_str : spec_float → string.

Local Abbreviation search_on os backend :=
  (search turn fen parse_san parse_uci push os backend float_str).
(** [search] on a system whose calls succeed. *)
Local Abbreviation search backend := (search_on os_ok backend).
Local Abbreviation request := (request fen float_str).

(** C1, as amended.  For a clock-plus-increment budget of floats whose
    tenfold clock and whose increment are finite, the effective time
    control is [max(int(c*10) + int(i)*1000 - 300, 96)], where [c] and [i]
    are the clock and increment of the side to move (white's for a white
    turn, black's for a black turn), [c*10] is the rounded double product
    and [int] drops the fractional part; for [int] clocks and increments
    it is [max(c*10 + i*1000 - 300, 96)]; whatever value a clock budget
    yields is an [int] not below 96; a clock whose tenfold is infinite
    yields no value, the call raises [OverflowError]; and the value is what
    [search] writes into the request. *)
Theorem time_control_clock_increment
    (backend : string → string) (p d : bool) (st : State)
    (wc wi bc bi : spec_float) (zwc zwi zbc zbi : Z) :
  Float64.is_finite (Float64.mul wc (Float64.of_Z 10)) = true →
  Float64.is_finite wi = true →
  Float64.is_finite (Float64.mul bc (Float64.of_Z 10)) = true →
  Float64.is_finite bi = true →
  time_control WHITE
    (clock_increment (Float wc) (Float wi) (Float bc) (Float bi)) =
    Return (Int (Z.max (Float64.trunc (Float64.mul wc (Float64.of_Z 10))
                        + Float64.trunc wi * 1000 - 300) 96))
  ∧ time_control BLACK
      (clock_increment (Float wc) (Float wi) (Float bc) (Float bi)) =
      Return (Int (Z.max (Float64.trunc (Float64.mul bc (Float64.of_Z 10))
                          + Float64.trunc bi * 1000 - 300) 96))
  ∧ time_control WHITE
      (clock_increment (Int zwc) (Int zwi) (Int zbc) (Int zbi)) =
      Return (Int (Z.max (zwc * 10 + zwi * 1000 - 300) 96))
  ∧ time_control BLACK
      (clock_increment (Int zwc) (Int zwi) (Int zbc) (Int zbi)) =
      Return (Int (Z.max (zbc * 10 + zbi * 1000 - 300) 96))
  ∧ (∀ side tl tc,
       time tl = None → time_control side tl = Return tc →
       ∃ z, tc = Int z ∧ 96 ≤ z)
  ∧ (∀ c s i bc' bi',
       Float64.mul c (Float64.of_Z 10) = S754_infinity s →
       time_control WHITE (clock_increment (Float c) i bc' bi') =
         Raise OverflowError)
  ∧ fs (fst (search backend
               (clock_increment (Float wc) (Float wi) (Float bc) (Float bi))
               p d st))
      !! file_in (move (self st)) =
      Some (request
              (Int (if turn (board st)
                    then Z.max (Float64.trunc
                                  (Float64.mul wc (Float64.of_Z 10))
                                + Float64.trunc wi * 1000 - 300) 96
                    else Z.max (Float64.trunc
                                  (Float64.mul bc (Float64.of_Z 10))
                                + Float64.trunc bi * 1000 - 300) 96))
              (board st)).
Proof.
  intros Hwc Hwi Hbc Hbi.
  assert (time_control WHITE
            (clock_increment (Float wc) (Float wi) (Float bc) (Float bi)) =
          Return (Int (Z.max (Float64.trunc
                                (Float64.mul wc (Float64.of_Z 10))
                              + Float64.trunc wi * 1000 - 300) 96))) as HW.
  { unfold time_control. simpl.
    apply clock_time_control_Some; by apply py_int_finite. }
  assert (time_control BLACK
            (clock_increment (Float wc) (Float wi) (Float bc) (Float bi)) =
          Return (Int (Z.max (Float64.trunc
                                (Float64.mul bc (Float64.of_Z 10))
                              + Float64.trunc bi * 1000 - 300) 96))) as HB.
  { unfold time_control. simpl.
    apply clock_time_control_Some; by apply py_int_finite. }
  split; [done|]. split; [done|]. split; [done|]. split; [done|].
  split; [|split].
  - intros side tl tc Htime. unfold time_control. rewrite Htime. simpl.
    destruct (decide (side = WHITE)); apply clock_time_control_floor.
  - intros c s i bc' bi' Hinf.
    change (time_control WHITE (clock_increment (Float c) i bc' bi'))
      with (result_bind (py_int (Float (Float64.mul c (Float64.of_Z 10))))
              (λ c0, result_bind (int_optional (Some i)) (λ i0,
                 Return (Int (Z.max (c0 + i0 * 1000 - 300) 96))))).
    by rewrite Hinf.
  - apply search_request_file. by destruct (turn (board st)).
Qed.

(** C2.  For a fixed allotment [a] the effective time control is exactly
    the product [a * 1000] as Python forms it, whichever side is to move:
    the exact integer for an [int], the rounded double product for a
    [float] (for the double 1.001 that is 1000.9999999999999); nothing
    else is applied to it, and it is the value [search] writes into the
    request. *)
Theorem time_control_fixed_allotment
    (backend : string → string) (p d : bool) (st : State)
    (side : bool) (a : number) (z : Z) (f : spec_float) :
  time_control side (fixed_allotment a) = Return (py_mul a 1000)
  ∧ time_control side (fixed_allotment (Int z)) = Return (Int (z * 1000))
  ∧ time_control side (fixed_allotment (Float f)) =
      Return (Float (Float64.mul f (Float64.of_Z 1000)))
  ∧ time_control side
      (fixed_allotment (Float (Float64.of_dyadic 4508103226997866 (-52)))) =
      Return (Float (S754_finite false 8804889115230207 (-43)))
  ∧ fs (fst (search backend (fixed_allotment a) p d st))
      !! file_in (move (self st)) =
      Some (request (py_mul a 1000) (board st)).
Proof.
  split; [done|]. split; [done|]. split; [done|].
  split; [by vm_compute|]. by apply search_request_file.
Qed.

(** Two file names of the driver differ. *)
Ltac path_ne :=
  first
    [ apply file_in_ne_out
    | let H := fresh in intros H; symmetry in H; by apply file_in_ne_out in H
    | let H := fresh in intros H%file_in_inj; lia
    | let H := fresh in intros H%file_out_inj; lia ].

(** C8, as amended.  The counter is zero after construction.  A call
    that [os.makedirs] lets through advances it by exactly one, wherever
    the call stops afterwards; a call on which [os.makedirs] raises leaves
    the counter and the files as they were.  Two consecutive calls that
    come to write their requests use the names of two counter values in
    a row: after the second call the request and the response of each are
    in place under names that differ. *)
Theorem move_counter
    (os os' : OS) (backend backend' : string → string)
    (name : option string) (tl tl' : Limit) (p d p' d' : bool)
    (st : State) (tc tc' : number) :
  makedirs_error os = None →
  makedirs_error os' = None →
  open_write_error os = None →
  open_write_error os' = None →
  time_control (turn (board st)) tl = Return tc →
  time_control
    (turn (board (fst (search_on os backend tl p d st)))) tl' = Return tc' →
  move (Engine_init name) = 0
  ∧ (∀ os0 backend0 tl0 p0 d0 st0,
       makedirs_error os0 = None →
       move (self (fst (search_on os0 backend0 tl0 p0 d0 st0))) =
         move (self st0) + 1)
  ∧ (∀ os0 backend0 tl0 p0 d0 st0 e,
       makedirs_error os0 = Some e →
       search_on os0 backend0 tl0 p0 d0 st0 = (st0, Raise e))
  ∧ fs (fst (search_on os' backend' tl' p' d'
               (fst (search_on os backend tl p d st))))
      !! file_in (move (self st)) = Some (request tc (board st))
  ∧ fs (fst (search_on os' backend' tl' p' d'
               (fst (search_on os backend tl p d st))))
      !! file_out (move (self st)) = Some (backend (request tc (board st)))
  ∧ fs (fst (search_on os' backend' tl' p' d'
               (fst (search_on os backend tl p d st))))
      !! file_in (move (self st) + 1) =
      Some (request tc' (board (fst (search_on os backend tl p d st))))
  ∧ fs (fst (search_on os' backend' tl' p' d'
               (fst (search_on os backend tl p d st))))
      !! file_out (move (self st) + 1) =
      Some (backend'
              (request tc' (board (fst (search_on os backend tl p d st)))))
  ∧ file_in (move (self st)) ≠ file_in (move (self st) + 1)
  ∧ file_out (move (self st)) ≠ file_out (move (self st) + 1).
Proof.
  intros Hmk Hmk' How How' Htc Htc'.
  split; [done|]. split.
  { intros os0 backend0 tl0 p0 d0 st0 Hmk0. by rewrite search_on_counted. }
  split.
  { intros os0 backend0 tl0 p0 d0 st0 e Hmk0.
    by rewrite search_steps, Hmk0. }
  assert (move (self (fst (search_on os backend tl p d st))) =
          move (self st) + 1) as Hn by (by rewrite search_on_counted).
  assert (file_in (move (self st)) ≠ file_in (move (self st) + 1)) as Hin.
  { intros H%file_in_inj. lia. }
  assert (file_out (move (self st)) ≠ file_out (move (self st) + 1)) as Hout.
  { intros H%file_out_inj. lia. }
  rewrite <- Hn.
  rewrite search_on_files with (tc := tc') by done.
  unfold answered at 1 2 3 4. cbn [fs].
  rewrite search_on_files with (tc := tc) by done.
  unfold answered. cbn [fs]. rewrite Hn.
  repeat split; try done;
    rewrite ?lookup_insert_ne by path_ne; apply lookup_insert_eq.
Qed.

End Budget.

(** The doubles used below: 0.5, 40.3, 100.25 and -1e308. *)
Example float_literals :
  Float64.of_dyadic 1 (-1) = S754_finite false 4503599627370496 (-53)
  ∧ Float64.of_dyadic 5671720780719718 (-47) =
      S754_finite false 5671720780719718 (-47)
  ∧ Float64.of_dyadic 401 (-2) = S754_finite false 7054466603810816 (-46)
  ∧ Float64.of_dyadic (-5010420900022432) 971 =
      S754_finite true 5010420900022432 971.
Proof. by vm_compute. Qed.

(** C1, counterexample.  White to move with 100 s on the clock and an
    increment of half a second: the driver computes 700, because
    [int(0.5)] is 0, where the formula [max(c*10 + i*1000 - 300, 96)]
    gives 1200.  And a clock of -1e308 s yields no time control at all:
    its tenfold is minus infinity and [int] raises [OverflowError], where
    the claim promises a value of at least 96. *)
Lemma time_control_truncates_increment :
  time_control WHITE
    (clock_increment (py_float 100) (Float (Float64.of_dyadic 1 (-1)))
       (py_float 7) (py_float 3)) = Return (Int 700)
  ∧ match Float64.value (Float64.of_Z 100),
          Float64.value (Float64.of_dyadic 1 (-1)) with
    | Some c, Some i =>
        (c == 100)%Q ∧ (i == 1 # 2)%Q
        ∧ (spec_time_control c i == 1200)%Q
        ∧ ¬ (inject_Z 700 == spec_time_control c i)%Q
    | _, _ => False
    end
  ∧ time_control WHITE
      (clock_increment (Float (Float64.of_dyadic (-5010420900022432) 971))
         (py_float 0) (py_float 7) (py_float 3)) = Raise OverflowError
  ∧ fs (fst (Fixture.search ""
               (clock_increment (py_float 100)
                  (Float (Float64.of_dyadic 1 (-1)))
                  (py_float 7) (py_float 3))
               false false (Fixture.start Fixture.initial)))
      !! file_in 0 = Some (Fixture.request (Int 700) Fixture.initial).
Proof.
  split; [by vm_compute|]. split.
  { vm_compute. repeat split; try reflexivity. intros H. discriminate H. }
  split; by vm_compute.
Qed.

Lemma time_control_clock_increment_witness :
  time_control WHITE
    (clock_increment (Float (Float64.of_dyadic 5671720780719718 (-47)))
       (py_float 2) (Float (Float64.of_dyadic 401 (-2)))
       (Float (Float64.of_dyadic 1 (-1)))) = Return (Int 2103)
  ∧ time_control BLACK
      (clock_increment (Float (Float64.of_dyadic 5671720780719718 (-47)))
         (py_float 2) (Float (Float64.of_dyadic 401 (-2)))
         (Float (Float64.of_dyadic 1 (-1)))) = Return (Int 702).
Proof.
  pose proof (time_control_clock_increment Fixture.turn Fixture.fen
                Fixture.parse_san Fixture.parse_uci Fixture.push
                Fixture.float_str (λ _, "") false false
                (Fixture.start Fixture.initial)
                (Float64.of_dyadic 5671720780719718 (-47))
                (Float64.of_Z 2)
                (Float64.of_dyadic 401 (-2))
                (Float64.of_dyadic 1 (-1)) 0 0 0 0
                eq_refl eq_refl eq_refl eq_refl) as (HW & HB & _).
  split; [exact HW | exact HB].
Defined.

(** C8, counterexample.  A first call on which [os.makedirs] raises
    (a file named [temp] is in the way): the call raises that error and
    the counter is still 0, not 1. *)
Lemma move_counter_not_advanced :
  search Fixture.turn Fixture.fen Fixture.parse_san Fixture.parse_uci
    Fixture.push
    {| makedirs_error := Some OSError; open_write_error := None;
       read_error := None |}
    (λ _, Fixture.lines ["info"; "COMPUTER PLAYED e4"]) Fixture.float_str
    (fixed_allotment (py_float 1)) false false
    (Fixture.start Fixture.initial) =
    (Fixture.start Fixture.initial, Raise OSError)
  ∧ move (self (Fixture.start Fixture.initial)) = 0.
Proof. split; reflexivity. Qed.

Lemma move_counter_witness :
  fs (fst (Fixture.search ""
             (clock_increment (py_float 60) (py_float 2)
                (py_float 60) (py_float 2)) false false
             (fst (Fixture.search
                     (Fixture.lines ["info"; "COMPUTER PLAYED e4"])
                     (fixed_allotment (py_float 1)) false false
                     (Fixture.start Fixture.initial)))))
    !! file_in (0 + 1) =
    Some (Fixture.request (Int 2300) Fixture.after_e4).
Proof.
  pose proof (move_counter Fixture.turn Fixture.fen
                Fixture.parse_san Fixture.parse_uci Fixture.push
                Fixture.float_str os_ok os_ok
                (λ _, Fixture.lines ["info"; "COMPUTER PLAYED e4"])
                (λ _, "") None
                (fixed_allotment (py_float 1))
                (clock_increment (py_float 60) (py_float 2)
                   (py_float 60) (py_float 2))
                false false false false
                (Fixture.start Fixture.initial)
                (py_mul (py_float 1) 1000) (Int 2300)
                eq_refl eq_refl eq_refl eq_refl eq_refl eq_refl)
    as (_ & _ & _ & _ & _ & H & _).
  exact H.
Defined.

(** ** Reading the response and deciding *)

Section Response.

Context {Board Move : Type}.
Variable turn : Board → bool.
Variable fen : Board → EnPassantSpec → string.
Variable parse_san : Board → string → option Move.
Variable parse_uci : Board → string → option Move.
Variable push : Board → Move → Board.
Variable float_str : spec_float → string.

(** [search] on a system whose calls succeed. *)
Local Abbreviation search backend :=
  (search turn fen parse_san parse_uci push os_ok backend float_str).
Local Abbreviation request := (request fen float_str).
Local Abbreviation answered backend := (answered fen backend float_str).
Local Abbreviation response_lines backend :=
  (response_lines fen backend float_str).
Local Abbreviation pushed := (pushed push).

(** A response whose token is not the sentinel: SAN first, UCI only when
    SAN raises [ValueError], and that error again when UCI fails too. *)
Lemma search_token backend (tl : Limit) (p d : bool) (st : State)
    (tc : number) (token : string) :
  time_control (turn (board st)) tl = Return tc →
  parse_move (response_lines backend st tc) = Return (Some token) →
  token ≠ RESIGN →
  search backend tl p d st =
    match parse_san (board st) token with
    | Some m => (pushed (answered backend st tc) m,
                 Return (PlayResult (Some m) None false))
    | None =>
        match parse_uci (board st) token with
        | Some m => (pushed (answered backend st tc) m,
                     Return (PlayResult (Some m) None false))
        | None => (answered backend st tc, Raise ValueError)
        end
    end.
Proof.
  intros Htc Hmove Hne.
  rewrite search_answered with (tc := tc) by done.
  rewrite Hmove. by rewrite interpret_token.
Qed.

(** A response whose token is the sentinel. *)
Lemma search_resign_token backend (tl : Limit) (p d : bool) (st : State)
    (tc : number) :
  time_control (turn (board st)) tl = Return tc →
  parse_move (response_lines backend st tc) = Return (Some RESIGN) →
  search backend tl p d st =
    (answered backend st tc, Return (PlayResult None None true)).
Proof.
  intros Htc Hmove.
  rewrite search_answered with (tc := tc) by done.
  by rewrite Hmove.
Qed.

(** A response without a token. *)
Lemma search_no_token backend (tl : Limit) (p d : bool) (st : State)
    (tc : number) :
  time_control (turn (board st)) tl = Return tc →
  parse_move (response_lines backend st tc) = Return None →
  search backend tl p d st = (answered backend st tc, Raise TypeError).
Proof.
  intros Htc Hmove.
  rewrite search_answered with (tc := tc) by done.
  by rewrite Hmove.
Qed.

(** Two played lines, [e2e4] and later [e7e5] as the last one: the token
    is [e7e5], also when the [e2e4] line is the first of the file. *)
Lemma parse_move_two_played_lines (before between after : list string) :
  Forall (λ l, played_token l = None) after →
  parse_move (before ++ ("COMPUTER PLAYED e2e4" +:+ NL) :: between
                     ++ ("COMPUTER PLAYED e7e5" +:+ NL) :: after) =
    Return (Some "e7e5").
Proof.
  intros Hafter. destruct before as [|first before]; simpl.
  - by apply parse_move_last.
  - assert (∀ x y : string,
              before ++ x :: between ++ y :: after =
              (before ++ x :: between) ++ y :: after) as ->
      by (intros; by rewrite <- app_assoc).
    by apply parse_move_last.
Qed.

(** A resignation line after the first line of the file, with no played
    line behind it, makes the call resign. *)
Lemma search_resigns backend (tl : Limit) (p d : bool) (st : State)
    (tc : number) (first : string) (before after : list string) :
  time_control (turn (board st)) tl = Return tc →
  response_lines backend st tc =
    first :: before ++ ("COMPUTER PLAYED RESIGN" +:+ NL) :: after →
  Forall (λ l, played_token l = None) after →
  search backend tl p d st =
    (answered backend st tc, Return (PlayResult None None true)).
Proof.
  intros Htc Hlines Hafter. apply search_resign_token; [done|].
  rewrite Hlines. by apply parse_move_last.
Qed.

(** C5.  When no line of the response starts with the played-move
    prefix, the call raises; it returns nothing, so neither a move nor a
    resignation, and the board is as it was. *)
Theorem search_without_played_line
    (backend : string → string) (tl : Limit) (p d : bool) (st : State)
    (tc : number) :
  time_control (turn (board st)) tl = Return tc →
  existsb (λ l, Text.startswith l PLAYED) (response_lines backend st tc)
    = false →
  search backend tl p d st = (answered backend st tc, Raise TypeError).
Proof.
  intros Htc Hnone. apply search_no_token; [done|].
  apply parse_move_none. apply Forall_forall. intros l Hl.
  destruct (Text.startswith l PLAYED) eqn:Hp; [|done].
  assert (existsb (λ l, Text.startswith l PLAYED)
            (response_lines backend st tc) = true) as Hex.
  { apply existsb_exists. exists l. split; [|done].
    by apply list_elem_of_In. }
  congruence.
Qed.

(** C6.  A token other than the sentinel is tried as SAN first and as
    UCI only when SAN fails; when both fail the [ValueError] leaves the
    call.  So when the library reads [san] and [uci] as the same move [m]
    of the position, the call returns [m] and leaves the same board
    whether the backend reports the move as [uci] or as [san]. *)
Theorem search_notation_fallback
    (backend_san backend_uci : string → string)
    (tl : Limit) (p d : bool) (st : State) (tc : number)
    (m : Move) (san uci : string) :
  time_control (turn (board st)) tl = Return tc →
  parse_move (response_lines backend_san st tc) = Return (Some san) →
  parse_move (response_lines backend_uci st tc) = Return (Some uci) →
  san ≠ RESIGN →
  uci ≠ RESIGN →
  parse_san (board st) san = Some m →
  parse_uci (board st) uci = Some m →
  (∀ m', parse_san (board st) uci = Some m' → m' = m) →
  (∀ backend token,
     parse_move (response_lines backend st tc) = Return (Some token) →
     token ≠ RESIGN →
     search backend tl p d st =
       match parse_san (board st) token with
       | Some m' => (pushed (answered backend st tc) m',
                     Return (PlayResult (Some m') None false))
       | None =>
           match parse_uci (board st) token with
           | Some m' => (pushed (answered backend st tc) m',
                         Return (PlayResult (Some m') None false))
           | None => (answered backend st tc, Raise ValueError)
           end
       end)
  ∧ snd (search backend_san tl p d st) =
      Return (PlayResult (Some m) None false)
  ∧ snd (search backend_uci tl p d st) =
      Return (PlayResult (Some m) None false)
  ∧ board (fst (search backend_uci tl p d st)) =
      board (fst (search backend_san tl p d st)).
Proof.
  intros Htc Hsan_line Huci_line Hsan_ne Huci_ne Hsan Huci Hcompat.
  split; [intros backend token Hline Hne; by apply search_token|].
  rewrite (search_token backend_san _ _ _ _ _ san) by done.
  rewrite (search_token backend_uci _ _ _ _ _ uci) by done.
  rewrite Hsan, Huci.
  destruct (parse_san (board st) uci) as [m'|] eqn:Hm'; [|done].
  by rewrite (Hcompat m').
Qed.

(** C7, as amended.  When the budget yields a time control, the request
    file of the call holds four lines in this order, [time_limit],
    [table_size], [go] with the position serialised by
    [fen(en_passant="fen")], and [quit], joined by single newlines; the
    first three end with a newline and nothing follows [quit]. *)
Theorem search_request_document
    (backend : string → string) (tl : Limit) (p d : bool) (st : State)
    (tc : number) :
  time_control (turn (board st)) tl = Return tc →
  fs (fst (search backend tl p d st)) !! file_in (move (self st)) =
    Some (Text.join_lines
            ["setoption time_limit " +:+ number_str float_str tc;
             "setoption table_size 69696983";
             "go " +:+ fen (board st) ep_fen;
             "quit"]).
Proof.
  intros Htc. rewrite search_request_file with (tc := tc) by done.
  f_equal. unfold request, NL. simpl.
  generalize (number_str float_str tc) (fen (board st) ep_fen).
  intros s1 s2. clear.
  assert (∀ a b c : string, (a +:+ b) +:+ c = a +:+ b +:+ c) as Hassoc.
  { intros a b c. induction a as [|x a IH]; [done|].
    change (String x ((a +:+ b) +:+ c) = String x (a +:+ b +:+ c)).
    by rewrite IH. }
  by rewrite !Hassoc.
Qed.

(** C10.  The call works on the caller's board.  When the token of the
    response is a move, read as SAN or else as UCI, that move has been
    pushed on the board when the call returns it; when the token is the
    resignation sentinel the board is left as it was, and so it is when
    neither notation accepts the token.  Seen from the outcome: a returned
    move has been pushed, a resignation or a raise leaves the board. *)
Theorem search_board_effect
    (backend : string → string) (tl : Limit) (p d : bool) (st : State)
    (tc : number) (token : string) :
  time_control (turn (board st)) tl = Return tc →
  parse_move (response_lines backend st tc) = Return (Some token) →
  (token = RESIGN →
   board (fst (search backend tl p d st)) = board st
   ∧ snd (search backend tl p d st) = Return (PlayResult None None true))
  ∧ (token ≠ RESIGN →
     ∀ m,
       parse_san (board st) token = Some m
       ∨ (parse_san (board st) token = None
          ∧ parse_uci (board st) token = Some m) →
       board (fst (search backend tl p d st)) = push (board st) m
       ∧ snd (search backend tl p d st) =
           Return (PlayResult (Some m) None false))
  ∧ (token ≠ RESIGN →
     parse_san (board st) token = None →
     parse_uci (board st) token = None →
     board (fst (search backend tl p d st)) = board st
     ∧ snd (search backend tl p d st) = Raise ValueError)
  ∧ (∀ backend' tl' p' d' st',
       match snd (search backend' tl' p' d' st') with
       | Return r =>
           match PlayResult.move r with
           | Some m =>
               board (fst (search backend' tl' p' d' st')) =
                 push (board st') m
               ∧ PlayResult.resigned r = false
           | None =>
               board (fst (search backend' tl' p' d' st')) = board st'
               ∧ PlayResult.resigned r = true
           end
       | Raise _ => board (fst (search backend' tl' p' d' st')) = board st'
       end).
Proof.
  intros Htc Hmove. split; [|split; [|split]].
  - intros ->. by rewrite search_resign_token with (tc := tc).
  - intros Hne m Hm.
    rewrite search_token with (tc := tc) (token := token) by done.
    destruct Hm as [->|[-> ->]]; done.
  - intros Hne Hsan Huci.
    rewrite search_token with (tc := tc) (token := token) by done.
    by rewrite Hsan, Huci.
  - clear. intros backend tl p d st.
    destruct (time_control (turn (board st)) tl) as [tc|e] eqn:Htc;
      [|by rewrite search_raise with (e := e)].
    rewrite search_answered with (tc := tc) by done.
    destruct (parse_move _) as [[token|]|e]; [|done..].
    destruct (decide (token = RESIGN)) as [->|Hne]; [done|].
    rewrite interpret_token by done. simpl.
    destruct (parse_san (board st) token); [done|].
    by destruct (parse_uci (board st) token).
Qed.

End Response.

(** ** The driver on concrete responses *)

(** C3.  The scan stops before index 0, so the first line of the response
    is never looked at: the token is the one of the last played line among
    the lines after the first.  A response whose only played line is its
    first line, [COMPUTER PLAYED e2e4] with [e2e4] legal, yields no token
    and the call raises instead of playing [e2e4]. *)
Theorem parse_move_skips_first_line :
  (∀ first rest,
     parse_move (first :: rest) =
       Return (head (omap played_token (reverse rest))))
  ∧ played_token ("COMPUTER PLAYED e2e4" +:+ NL) = Some "e2e4"
  ∧ Text.readlines (Fixture.lines ["COMPUTER PLAYED e2e4"]) =
      ["COMPUTER PLAYED e2e4" +:+ NL]
  ∧ parse_move (Text.readlines (Fixture.lines ["COMPUTER PLAYED e2e4"])) =
      Return None
  ∧ Fixture.parse_uci Fixture.initial "e2e4" = Some "e2e4"
  ∧ snd (Fixture.search (Fixture.lines ["COMPUTER PLAYED e2e4"])
           (fixed_allotment (py_float 1)) false false
             (Fixture.start Fixture.initial)) =
      Raise TypeError.
Proof.
  split; [exact parse_move_tail|]. by vm_compute.
Qed.

(** C4.  A response whose last played line is [COMPUTER PLAYED RESIGN]
    standing on the first line of the file, alone or followed by other
    lines: the line is not looked at and the call raises instead of
    resigning. *)
Theorem resignation_on_first_line_missed :
  played_token ("COMPUTER PLAYED RESIGN" +:+ NL) = Some RESIGN
  ∧ snd (Fixture.search (Fixture.lines ["COMPUTER PLAYED RESIGN"])
           (fixed_allotment (py_float 1)) false false
             (Fixture.start Fixture.initial)) =
      Raise TypeError
  ∧ snd (Fixture.search
           (Fixture.lines ["COMPUTER PLAYED RESIGN"; "info nodes 12"])
           (fixed_allotment (py_float 1)) false false
             (Fixture.start Fixture.initial)) =
      Raise TypeError.
Proof. by vm_compute. Qed.

(** The same line one place further down is honoured. *)
Example resignation_on_second_line :
  Fixture.search
    (Fixture.lines ["info depth 4"; "COMPUTER PLAYED RESIGN"; "info nodes 12"])
    (fixed_allotment (py_float 1)) false false (Fixture.start Fixture.initial) =
    (answered Fixture.fen
       (λ _, Fixture.lines
               ["info depth 4"; "COMPUTER PLAYED RESIGN"; "info nodes 12"])
       Fixture.float_str
         (Fixture.start Fixture.initial) (py_mul (py_float 1) 1000),
     Return (PlayResult None None true)).
Proof. by vm_compute. Qed.

Lemma search_without_played_line_witness :
  time_control (Fixture.turn Fixture.initial) (fixed_allotment (py_float 1)) =
    Return (py_mul (py_float 1) 1000)
  ∧ Fixture.search (Fixture.lines ["info depth 4"; "bye"])
      (fixed_allotment (py_float 1)) false false
        (Fixture.start Fixture.initial) =
      (answered Fixture.fen (λ _, Fixture.lines ["info depth 4"; "bye"])
         Fixture.float_str (Fixture.start Fixture.initial)
         (py_mul (py_float 1) 1000),
       Raise TypeError).
Proof.
  split; [reflexivity|].
  apply (search_without_played_line Fixture.turn Fixture.fen
           Fixture.parse_san Fixture.parse_uci Fixture.push Fixture.float_str
           (λ _, Fixture.lines ["info depth 4"; "bye"])
           (fixed_allotment (py_float 1)) false false
             (Fixture.start Fixture.initial)
           (py_mul (py_float 1) 1000)).
  - reflexivity.
  - vm_compute. reflexivity.
Defined.

Lemma search_notation_fallback_witness :
  snd (Fixture.search (Fixture.lines ["info"; "COMPUTER PLAYED e4"])
         (clock_increment (py_float 60) (py_float 2) (py_float 60)
            (py_float 2)) false false
         (Fixture.start Fixture.initial)) =
    Return (PlayResult (Some "e2e4") None false)
  ∧ snd (Fixture.search (Fixture.lines ["info"; "COMPUTER PLAYED e2e4"])
           (clock_increment (py_float 60) (py_float 2) (py_float 60)
            (py_float 2)) false false
           (Fixture.start Fixture.initial)) =
      Return (PlayResult (Some "e2e4") None false)
  ∧ board (fst (Fixture.search (Fixture.lines ["info"; "COMPUTER PLAYED e2e4"])
                  (clock_increment (py_float 60) (py_float 2) (py_float 60)
            (py_float 2)) false false
                  (Fixture.start Fixture.initial))) =
      board (fst (Fixture.search (Fixture.lines ["info"; "COMPUTER PLAYED e4"])
                    (clock_increment (py_float 60) (py_float 2) (py_float 60)
            (py_float 2)) false false
                    (Fixture.start Fixture.initial))).
Proof.
  apply (search_notation_fallback Fixture.turn Fixture.fen
           Fixture.parse_san Fixture.parse_uci Fixture.push Fixture.float_str
           (λ _, Fixture.lines ["info"; "COMPUTER PLAYED e4"])
           (λ _, Fixture.lines ["info"; "COMPUTER PLAYED e2e4"])
           (clock_increment (py_float 60) (py_float 2) (py_float 60)
            (py_float 2)) false false
           (Fixture.start Fixture.initial) (Int 2300)
           "e2e4" "e4" "e2e4").
  - reflexivity.
  - vm_compute. reflexivity.
  - vm_compute. reflexivity.
  - discriminate.
  - discriminate.
  - vm_compute. reflexivity.
  - vm_compute. reflexivity.
  - intros m' H. vm_compute in H. congruence.
Defined.

(** C7, counterexample.  The request of a first call on the initial
    position: its last line, [quit], is not terminated by a newline. *)
Lemma request_last_line_unterminated :
  fs (fst (Fixture.search "" (fixed_allotment (py_float 1)) false false
             (Fixture.start Fixture.initial))) !! file_in 0 =
    Some (Fixture.request (py_mul (py_float 1) 1000) Fixture.initial)
  ∧ Text.readlines (Fixture.request
    (py_mul (py_float 1) 1000) Fixture.initial) =
      ["setoption time_limit 1000.0" +:+ NL;
       "setoption table_size 69696983" +:+ NL;
       "go rnbqkbnr/pppppppp/8/8/8/8/PPPPPPPP/RNBQKBNR w KQkq - 0 1" +:+ NL;
       "quit"]
  ∧ Text.newline_terminated
      (Fixture.request (py_mul (py_float 1) 1000) Fixture.initial) = false.
Proof. by vm_compute. Qed.

Lemma search_request_document_witness :
  time_control (Fixture.turn Fixture.after_e4)
    (clock_increment (py_float 60) (py_float 2)
       (py_float 45) (py_float 1)) =
    Return (Int 1150)
  ∧ fs (fst (Fixture.search ""
    (clock_increment (py_float 60) (py_float 2)
       (py_float 45) (py_float 1)) false false
               (Fixture.start Fixture.after_e4))) !! file_in 0 =
      Some (Text.join_lines
              ["setoption time_limit 1150";
               "setoption table_size 69696983";
               "go rnbqkbnr/pppppppp/8/8/4P3/8/PPPP1PPP/RNBQKBNR b KQkq e3 0 1";
               "quit"]).
Proof.
  split; [reflexivity|].
  apply (search_request_document Fixture.turn Fixture.fen
           Fixture.parse_san Fixture.parse_uci Fixture.push Fixture.float_str
           (λ _, "") (clock_increment (py_float 60) (py_float 2)
       (py_float 45) (py_float 1)) false false
           (Fixture.start Fixture.after_e4) (Int 1150)).
  reflexivity.
Defined.

Lemma search_board_effect_witness :
  board (fst (Fixture.search (Fixture.lines ["info"; "COMPUTER PLAYED e4"])
                (fixed_allotment (py_float 1)) false false
                (Fixture.start Fixture.initial))) =
    Fixture.push Fixture.initial "e2e4"
  ∧ snd (Fixture.search (Fixture.lines ["info"; "COMPUTER PLAYED e4"])
           (fixed_allotment (py_float 1)) false false
           (Fixture.start Fixture.initial)) =
      Return (PlayResult (Some "e2e4") None false).
Proof.
  pose proof (search_board_effect Fixture.turn Fixture.fen
                Fixture.parse_san Fixture.parse_uci Fixture.push
                Fixture.float_str
                (λ _, Fixture.lines ["info"; "COMPUTER PLAYED e4"])
                (fixed_allotment (py_float 1)) false false
                (Fixture.start Fixture.initial)
                (py_mul (py_float 1) 1000) "e4" eq_refl eq_refl)
    as (_ & Hmove & _).
  apply Hmove; [discriminate|]. left. reflexivity.
Defined.

(** ** The relay *)

(** C9, counterexample.  [name] is an instance attribute of the relay, so
    calling it never reaches [__getattr__]: the stored [None] is called,
    which raises, and the owner is not notified.  And a forwarded call
    with a keyword named [method_name] (or [self]) raises [TypeError]
    when [notify] is called, before its body is entered. *)
Lemma relay_stored_attribute_not_forwarded :
  FillerEngine.invoke FillerEngine.class_body
    FillerEngine.MinimalEngine_notify
    (FillerEngine.init 0 None) "name" [FillerEngine.VInt 1] [] =
    FillerEngine.Done [] (Raise TypeError)
  ∧ FillerEngine.invoke FillerEngine.class_body
      FillerEngine.MinimalEngine_notify
      (FillerEngine.init 0 None) "ping" [FillerEngine.VInt 1]
      [("method_name", FillerEngine.VInt 1)] =
      FillerEngine.Done [] (Raise TypeError)
  ∧ FillerEngine.invoke FillerEngine.class_body
      FillerEngine.MinimalEngine_notify
      (FillerEngine.init 0 None) "ping" [FillerEngine.VInt 1]
      [("self", FillerEngine.VInt 1)] =
      FillerEngine.Done [] (Raise TypeError)
  ∧ FillerEngine.invoke FillerEngine.class_body
      FillerEngine.MinimalEngine_notify
      (FillerEngine.init 0 None) "__str__" [] [] =
      FillerEngine.TypeAttribute "__str__".
Proof. by vm_compute. Qed.

(** C9, as amended.  For every name that ordinary attribute lookup does
    not resolve (not [id], [name] or [main_engine], and not found on the
    class or on [object]), all positional arguments and all keyword
    arguments none of which is named [self] or [method_name], invoking
    the name on the relay makes exactly one call of the owner's [notify],
    with that name and those arguments, and returns what [notify]
    returns; with the [notify] of [MinimalEngine], which does nothing, it
    returns [None] and does not raise. *)
Theorem relay_forwards
    (on_type : string → bool)
    (notify :
       nat → string → list FillerEngine.value →
       list (string * FillerEngine.value) → result FillerEngine.value)
    (self : FillerEngine.t) (attr : string)
    (args : list FillerEngine.value)
    (kwargs : list (string * FillerEngine.value)) :
  attr ≠ "id" → attr ≠ "name" → attr ≠ "main_engine" →
  on_type attr = false →
  FillerEngine.keyword_clash kwargs = false →
  FillerEngine.invoke on_type notify self attr args kwargs =
    FillerEngine.Done
      [{| FillerEngine.receiver := FillerEngine.main_engine self;
          FillerEngine.method_name := attr;
          FillerEngine.args := args;
          FillerEngine.kwargs := kwargs |}]
      (notify (FillerEngine.main_engine self) attr args kwargs)
  ∧ FillerEngine.invoke on_type
      FillerEngine.MinimalEngine_notify self attr args kwargs =
      FillerEngine.Done
        [{| FillerEngine.receiver := FillerEngine.main_engine self;
            FillerEngine.method_name := attr;
            FillerEngine.args := args;
            FillerEngine.kwargs := kwargs |}]
        (Return FillerEngine.VNone).
Proof.
  intros Hid Hname Hmain Htype Hkw.
  unfold FillerEngine.invoke, FillerEngine.getattr,
    FillerEngine.MinimalEngine_notify. simpl.
  rewrite !decide_False by congruence. by rewrite Htype, Hkw.
Qed.

Lemma relay_forwards_witness :
  FillerEngine.invoke FillerEngine.class_body
    FillerEngine.MinimalEngine_notify
    (FillerEngine.init 7 (Some "Engine")) "send_opponent_information"
    [FillerEngine.VStr "opponent"] [("rating", FillerEngine.VInt 1500)] =
    FillerEngine.Done
      [{| FillerEngine.receiver := 7;
          FillerEngine.method_name := "send_opponent_information";
          FillerEngine.args := [FillerEngine.VStr "opponent"];
          FillerEngine.kwargs := [("rating", FillerEngine.VInt 1500)] |}]
      (Return FillerEngine.VNone).
Proof.
  apply (relay_forwards FillerEngine.class_body
           FillerEngine.MinimalEngine_notify
           (FillerEngine.init 7 (Some "Engine")) "send_opponent_information"
           [FillerEngine.VStr "opponent"]
           [("rating", FillerEngine.VInt 1500)]);
    [discriminate | discriminate | discriminate
    | vm_compute; reflexivity | vm_compute; reflexivity].
Defined.

(** * Further properties of the driver *)

Section DriverMore.

Context {Board Move : Type}.
Variable turn : Board → bool.
Variable fen : Board → EnPassantSpec → string.
Variable parse_san : Board → string → option Move.
Variable parse_uci : Board → string → option Move.
Variable push : Board → Move → Board.
Variable float_str : spec_float → string.

Local Abbreviation search_on os backend :=
  (search turn fen parse_san parse_uci push os backend float_str).
(** [search] on a system whose calls succeed. *)
Local Abbreviation search backend := (search_on os_ok backend).
Local Abbreviation request := (request fen float_str).
Local Abbreviation answered backend := (answered fen backend float_str).
Local Abbreviation response_lines backend :=
  (response_lines fen backend float_str).
Local Abbreviation run_calls :=
  (run_calls turn fen parse_san parse_uci push float_str).

(** A call reads and writes its own two files only. *)
Lemma search_other_path backend (tl : Limit) (p d : bool) (st : State)
    (path : string) :
  path ≠ file_in (move (self st)) →
  path ≠ file_out (move (self st)) →
  fs (fst (search backend tl p d st)) !! path = fs st !! path.
Proof.
  intros Hin Hout.
  destruct (time_control (turn (board st)) tl) as [tc|e] eqn:Htc.
  - rewrite search_fs with (tc := tc) by done. simpl.
    by rewrite !lookup_insert_ne.
  - by rewrite search_raise with (e := e).
Qed.

(** X1.  A budget without [time] that lacks the clock or the increment of
    the side to move makes the call raise: the counter is advanced, no
    file is written and the board is not touched.  The exception is
    [TypeError], except that a clock whose tenfold is infinite or not a
    number stops the call first, with the [OverflowError] or [ValueError]
    of [int]. *)
Theorem search_clock_budget_incomplete
    (backend : string → string) (tl : Limit) (p d : bool) (st : State) :
  time tl = None →
  (if turn (board st) then white_clock tl else black_clock tl) = None
  ∨ (if turn (board st) then white_inc tl else black_inc tl) = None →
  ∃ e,
    search backend tl p d st = (counted st, Raise e)
    ∧ ((if turn (board st) then white_clock tl else black_clock tl) = None →
       e = TypeError)
    ∧ (∀ c z,
         (if turn (board st) then white_clock tl else black_clock tl) =
           Some c →
         py_int (py_mul c 10) = Return z → e = TypeError)
    ∧ (∀ c e',
         (if turn (board st) then white_clock tl else black_clock tl) =
           Some c →
         py_int (py_mul c 10) = Raise e' →
         e = e' ∧ (e' = OverflowError ∨ e' = ValueError)).
Proof.
  intros Htime Hside.
  assert (time_control (turn (board st)) tl =
          clock_time_control
            (if turn (board st) then white_clock tl else black_clock tl)
            (if turn (board st) then white_inc tl else black_inc tl)) as Htc.
  { unfold time_control. rewrite Htime. simpl. by destruct (turn (board st)). }
  destruct (if turn (board st) then white_clock tl else black_clock tl)
    as [c|] eqn:Hclock.
  - destruct Hside as [?|Hinc]; [done|]. rewrite Hinc in Htc.
    unfold clock_time_control in Htc. simpl in Htc.
    destruct (py_int (py_mul c 10)) as [z|e'] eqn:Hint; simpl in Htc.
    + exists TypeError. split; [by apply search_raise|].
      split; [done|]. split; [done|].
      intros c' e' [= <-]. by rewrite Hint.
    + exists e'. split; [by apply search_raise|].
      split; [done|]. split.
      * intros c' z [= <-]. by rewrite Hint.
      * intros c' e'' [= <-]. rewrite Hint. intros [= <-]. split; [done|].
        by eapply py_int_raises.
  - exists TypeError. split; [by apply search_raise|]. done.
Qed.

(** X2.  A populated [time] field decides alone: the clocks and increments
    are not read, and neither the margin of 300 nor the floor of 96 is
    applied; the value written is the product [time * 1000] as Python
    forms it, exact for an [int] and the rounded double product for a
    [float]. *)
Theorem search_time_overrides_clocks
    (backend : string → string) (tl : Limit) (p d : bool) (st : State)
    (a : number) :
  time tl = Some a →
  time_control (turn (board st)) tl = Return (py_mul a 1000)
  ∧ fs (fst (search backend tl p d st)) !! file_in (move (self st)) =
      Some (request (py_mul a 1000) (board st)).
Proof.
  intros Htime.
  assert (time_control (turn (board st)) tl = Return (py_mul a 1000))
    as Htc by (by apply time_control_time).
  split; [done|]. by apply search_request_file.
Qed.

(** X3.  Whatever the outcome of a call, every file other than the
    request and the response file of that call is as it was. *)
Theorem search_leaves_other_files
    (backend : string → string) (tl : Limit) (p d : bool) (st : State)
    (path : string) :
  path ≠ file_in (move (self st)) →
  path ≠ file_out (move (self st)) →
  fs (fst (search backend tl p d st)) !! path = fs st !! path.
Proof. apply search_other_path. Qed.

(** X4.  When the budget yields a time control, the response file of the
    call holds what the backend printed for the request of that call, also
    when the call goes on to raise. *)
Theorem search_response_file
    (backend : string → string) (tl : Limit) (p d : bool) (st : State)
    (tc : number) :
  time_control (turn (board st)) tl = Return tc →
  fs (fst (search backend tl p d st)) !! file_out (move (self st)) =
    Some (backend (request tc (board st))).
Proof.
  intros Htc. rewrite search_fs with (tc := tc) by done. simpl.
  apply lookup_insert_eq.
Qed.

(** X5.  Every exception that leaves a call comes from one of six
    places: [os.makedirs], the time control, opening the request file,
    reading the response file, a response without a token ([TypeError]),
    or a token other than the sentinel that neither notation accepts
    ([ValueError]).  The scan itself never raises: it indexes inside the
    lines it has read. *)
Theorem search_raise_sites
    (os : OS) (backend : string → string) (tl : Limit) (p d : bool)
    (st : State) (e : exn) :
  snd (search_on os backend tl p d st) = Raise e →
  makedirs_error os = Some e
  ∨ time_control (turn (board st)) tl = Raise e
  ∨ open_write_error os = Some e
  ∨ read_error os = Some e
  ∨ (e = TypeError
     ∧ ∃ tc,
         time_control (turn (board st)) tl = Return tc
         ∧ parse_move (response_lines backend st tc) = Return None)
  ∨ (e = ValueError
     ∧ ∃ tc token,
         time_control (turn (board st)) tl = Return tc
         ∧ parse_move (response_lines backend st tc) = Return (Some token)
         ∧ token ≠ RESIGN
         ∧ parse_san (board st) token = None
         ∧ parse_uci (board st) token = None).
Proof.
  rewrite search_steps.
  destruct (makedirs_error os) as [e1|]; [simpl; intros [= <-]; auto|].
  destruct (time_control (turn (board st)) tl) as [tc|e2] eqn:Htc;
    [|simpl; intros [= <-]; auto].
  destruct (open_write_error os) as [e3|]; [simpl; intros [= <-]; auto|].
  destruct (read_error os) as [e4|]; [simpl; intros [= <-]; auto 6|].
  destruct (parse_move_returns (response_lines backend st tc))
    as [[token|] Hmove]; rewrite Hmove.
  - destruct (decide (token = RESIGN)) as [->|Hne];
      [by rewrite interpret_RESIGN|].
    rewrite interpret_token by done.
    change (board (answered backend st tc)) with (board st).
    destruct (parse_san (board st) token) eqn:Hsan; [done|].
    destruct (parse_uci (board st) token) eqn:Huci; [done|].
    simpl. intros [= <-]. do 5 right. split; [done|]. by exists tc, token.
  - simpl. intros [= <-]. do 4 right. left. split; [done|]. by exists tc.
Qed.

(** X6.  A result never carries a ponder move or a draw offer, and the
    [ponder] and [draw_offered] arguments change nothing about a call. *)
Theorem search_ignores_ponder_and_draw
    (backend : string → string) (tl : Limit) (p d p' d' : bool)
    (st : State) :
  search backend tl p d st = search backend tl p' d' st
  ∧ match snd (search backend tl p d st) with
    | Return r =>
        PlayResult.ponder r = None ∧ PlayResult.draw_offered r = false
    | Raise _ => True
    end.
Proof.
  split; [done|].
  destruct (time_control (turn (board st)) tl) as [tc|e] eqn:Htc;
    [|by rewrite search_raise with (e := e)].
  rewrite search_answered with (tc := tc) by done.
  destruct (parse_move _) as [[token|]|e]; [|done..].
  destruct (decide (token = RESIGN)) as [->|Hne];
      [by rewrite interpret_RESIGN|].
  rewrite interpret_token by done.
  change (board (answered backend st tc)) with (board st).
  destruct (parse_san (board st) token); [done|].
  by destruct (parse_uci (board st) token).
Qed.

(** X7.  Given a time control, the call resigns exactly when the token of
    the response is the text [RESIGN]; the comparison is exact, so any
    other token goes to the notation parsers. *)
Theorem search_resigns_iff_token
    (backend : string → string) (tl : Limit) (p d : bool) (st : State)
    (tc : number) :
  time_control (turn (board st)) tl = Return tc →
  (∃ r, snd (search backend tl p d st) = Return r
        ∧ PlayResult.resigned r = true)
  ↔ parse_move (response_lines backend st tc) = Return (Some RESIGN).
Proof.
  intros Htc. rewrite search_answered with (tc := tc) by done. split.
  - destruct (parse_move _) as [[token|]|e];
      [|by intros (r & [=] & _)..].
    destruct (decide (token = RESIGN)) as [->|Hne];
      [by rewrite interpret_RESIGN|].
    rewrite interpret_token by done.
    change (board (answered backend st tc)) with (board st).
    destruct (parse_san (board st) token).
    { by intros (r & [= <-] & Hr). }
    destruct (parse_uci (board st) token).
    { by intros (r & [= <-] & Hr). }
    by intros (r & [=] & _).
  - intros ->. by eexists.
Qed.

(** X8.  After any sequence of calls the counter has grown by the number
    of calls that [os.makedirs] let through, whichever of them returned or
    raised afterwards; a call stopped by [os.makedirs] does not count. *)
Theorem run_calls_counter (calls : list Call) (st : State) :
  move (self (run_calls calls st)) =
    move (self st)
    + Z.of_nat (length (filter (λ c, makedirs_error (call_os c) = None)
                               calls)).
Proof.
  revert st. induction calls as [|c calls IH]; intros st; simpl; [lia|].
  rewrite IH, search_on_counter. simpl. rewrite filter_cons.
  destruct (decide (makedirs_error (call_os c) = None)) as [->|Hmk].
  - simpl. lia.
  - destruct (makedirs_error (call_os c)); [lia|done].
Qed.

(** X9.  Later calls never touch the files of earlier ones: the request
    and the response file of every counter value already passed are, after
    any further calls, as they were. *)
Theorem run_calls_keeps_earlier_files
    (calls : list Call) (st : State) (k : Z) :
  k < move (self st) →
  fs (run_calls calls st) !! file_in k = fs st !! file_in k
  ∧ fs (run_calls calls st) !! file_out k = fs st !! file_out k.
Proof.
  revert st. induction calls as [|c calls IH]; intros st Hk; [done|].
  simpl.
  destruct (IH (fst (search_on (call_os c) (call_backend c) (call_limit c)
                       (call_ponder c) (call_draw_offered c)
                       {| self := self st; board := call_board c;
                          fs := fs st |}))) as [Hin Hout].
  { rewrite search_on_counter. simpl.
    destruct (makedirs_error (call_os c)); lia. }
  rewrite Hin, Hout. split.
  - rewrite search_on_other_path; [done|..]; simpl.
    + intros H%file_in_inj. lia.
    + apply file_in_ne_out.
  - rewrite search_on_other_path; [done|..]; simpl.
    + intros H. symmetry in H. by apply file_in_ne_out in H.
    + intros H%file_out_inj. lia.
Qed.

End DriverMore.

(** * The token and its padding *)

Section Padding.

Lemma string_app_assoc (a b c : string) : (a +:+ b) +:+ c = a +:+ b +:+ c.
Proof.
  induction a as [|x a IH]; [done|].
  change (String x ((a +:+ b) +:+ c) = String x (a +:+ b +:+ c)).
  by rewrite IH.
Qed.

Lemma string_app_empty_r (a : string) : a +:+ "" = a.
Proof.
  induction a as [|x a IH]; [done|].
  change (String x (a +:+ "") = String x a). by rewrite IH.
Qed.

Lemma rev_app_append_l (s1 s2 t : string) :
  String.rev_app (s1 +:+ s2) t = String.rev_app s2 (String.rev_app s1 t).
Proof.
  revert t. induction s1 as [|x s1 IH]; intros t; [done|].
  change (String.rev_app (s1 +:+ s2) (String x t) =
          String.rev_app s2 (String.rev_app s1 (String x t))).
  apply IH.
Qed.

Lemma rev_app_append_r (s1 s2 s3 : string) :
  String.rev_app s1 s2 +:+ s3 = String.rev_app s1 (s2 +:+ s3).
Proof.
  revert s2. induction s1 as [|x s1 IH]; intros s2; [done|].
  simpl. by rewrite IH.
Qed.

Lemma string_rev_app (s1 s2 : string) :
  String.rev (s1 +:+ s2) = String.rev s2 +:+ String.rev s1.
Proof.
  unfold String.rev. rewrite rev_app_append_l.
  by rewrite rev_app_append_r.
Qed.

Lemma rev_app_rev_app (s1 s2 s3 : string) :
  String.rev_app (String.rev_app s1 s2) s3 = String.rev_app s2 (s1 +:+ s3).
Proof.
  revert s2 s3. induction s1 as [|x s1 IH]; intros s2 s3; [done|].
  simpl. by rewrite IH.
Qed.

Lemma string_rev_involutive (s : string) : String.rev (String.rev s) = s.
Proof.
  unfold String.rev. rewrite rev_app_rev_app. simpl.
  apply string_app_empty_r.
Qed.

Lemma all_space_rev_app (s t : string) :
  all_space (String.rev_app s t) = all_space s && all_space t.
Proof.
  revert t. induction s as [|x s IH]; intros t; [done|].
  simpl. rewrite IH. simpl.
  by destruct (Text.is_space x), (all_space s), (all_space t).
Qed.

Lemma lstrip_space_app (pad s : string) :
  all_space pad = true → Text.lstrip (pad +:+ s) = Text.lstrip s.
Proof.
  induction pad as [|x pad IH]; [done|]. simpl.
  intros [Hx Hpad]%andb_prop.
  change (Text.lstrip (String x (pad +:+ s)) = Text.lstrip s).
  simpl. rewrite Hx. by apply IH.
Qed.

Lemma lstrip_nonspace_app (s t : string) :
  nonspace_head s = true → Text.lstrip (s +:+ t) = s +:+ t.
Proof.
  destruct s as [|x s]; [done|]. simpl. intros Hx%negb_true_iff.
  change (Text.lstrip (String x (s +:+ t)) = String x (s +:+ t)).
  simpl. by rewrite Hx.
Qed.

(** Stripping removes white space around a text that has none at its
    ends, and nothing else. *)
Lemma strip_padding (pad1 pad2 s : string) :
  all_space pad1 = true → all_space pad2 = true →
  nonspace_ends s = true →
  Text.strip (pad1 +:+ s +:+ pad2) = s.
Proof.
  intros Hpad1 Hpad2 [Hhead Hlast]%andb_prop.
  unfold Text.strip, Text.rstrip.
  rewrite lstrip_space_app, lstrip_nonspace_app by done.
  rewrite string_rev_app, lstrip_space_app.
  - rewrite <- (string_app_empty_r (String.rev s)).
    rewrite lstrip_nonspace_app by done.
    rewrite string_app_empty_r. apply string_rev_involutive.
  - unfold String.rev. rewrite all_space_rev_app. by rewrite Hpad2.
Qed.

(** X10.  On a played line the character after the prefix is skipped
    without being looked at, and white space around the rest does not
    count: the token is the text between the padding. *)
Theorem played_token_ignores_padding
    (sep : ascii) (pad1 pad2 token : string) :
  all_space pad1 = true →
  all_space pad2 = true →
  nonspace_ends token = true →
  played_token (PLAYED +:+ String sep (pad1 +:+ token +:+ pad2)) =
    Some token.
Proof.
  intros Hpad1 Hpad2 Htoken. unfold played_token.
  change (Text.startswith
            (PLAYED +:+ String sep (pad1 +:+ token +:+ pad2)) PLAYED)
    with true.
  change (Text.slice_from 16
            (PLAYED +:+ String sep (pad1 +:+ token +:+ pad2)))
    with (pad1 +:+ token +:+ pad2).
  simpl. f_equal. by apply strip_padding.
Qed.

End Padding.

Lemma played_token_ignores_padding_witness :
  played_token
    (PLAYED +:+ String ":" ("  " +:+ "RESIGN" +:+ String Text.CR NL)) =
    Some "RESIGN".
Proof.
  apply (played_token_ignores_padding ":" "  " (String Text.CR NL) "RESIGN");
    reflexivity.
Defined.

(** * The example strategies *)

Section Sorting.

Context {A : Type}.
Variable key : A → string.

Lemma ltb_false_le (a b : string) :
  String.ltb a b = false ↔ String.le b a.
Proof.
  unfold String.le, String.leb, String.ltb.
  rewrite (String.compare_antisym a b).
  destruct (String.compare b a); simpl; split; done.
Qed.

Lemma ltb_true_le (a b : string) : String.ltb a b = true → String.le a b.
Proof.
  unfold String.le, String.leb, String.ltb.
  by destruct (String.compare a b).
Qed.

Lemma head_sort_cons (x : A) (l : list A) :
  head (sort_by_key key (x :: l)) =
    match head (sort_by_key key l) with
    | None => Some x
    | Some y => if String.ltb (key y) (key x) then Some y else Some x
    end.
Proof.
  simpl. destruct (sort_by_key key l) as [|y l']; [done|]. simpl.
  by destruct (String.ltb (key y) (key x)).
Qed.

Lemma head_sort_None (l : list A) :
  head (sort_by_key key l) = None → l = [].
Proof.
  destruct l as [|x l]; [done|]. rewrite head_sort_cons.
  destruct (head (sort_by_key key l)) as [y|]; [|done].
  by destruct (String.ltb (key y) (key x)).
Qed.

(** The first element after sorting is the earliest element of the list
    whose key is smallest. *)
Lemma head_sort_spec (l : list A) (h : A) :
  head (sort_by_key key l) = Some h →
  ∃ before after,
    l = before ++ h :: after
    ∧ (∀ x, x ∈ before → String.ltb (key h) (key x) = true)
    ∧ (∀ x, x ∈ after → String.ltb (key x) (key h) = false).
Proof.
  revert h. induction l as [|x l IH]; intros h; [done|].
  rewrite head_sort_cons.
  destruct (head (sort_by_key key l)) as [y|] eqn:Hhead.
  - destruct (IH y eq_refl) as (before & after & -> & Hbefore & Hafter).
    destruct (String.ltb (key y) (key x)) eqn:Hyx; intros [= <-].
    + exists (x :: before), after. split; [done|]. split; [|done].
      intros z [->|Hz]%elem_of_cons; [done|]. by apply Hbefore.
    + exists [], (before ++ y :: after). split; [done|].
      split; [by intros z Hz%elem_of_nil|].
      apply ltb_false_le in Hyx.
      intros z Hz. apply ltb_false_le.
      apply elem_of_app in Hz as [Hz|[->|Hz]%elem_of_cons].
      * etrans; [exact Hyx|]. by apply ltb_true_le, Hbefore.
      * done.
      * etrans; [exact Hyx|]. by apply ltb_false_le, Hafter.
  - apply head_sort_None in Hhead as ->. intros [= <-].
    exists [], []. split; [done|]. split; by intros z Hz%elem_of_nil.
Qed.

Lemma getitem_0 (l : list A) :
  getitem l 0 = from_option Return (Raise IndexError) (head l).
Proof. by destruct l. Qed.

End Sorting.

Section Strategies.

Context {Board Move : Type}.
Variable legal_moves : Board → list Move.
Variable san : Board → Move → string.
Variable str : Move → string.

(** X11.  [Alphabetical] returns the legal move whose SAN is smallest in
    code point order, and among moves of equal SAN the one that comes
    first among the legal moves; no ponder move, no resignation. *)
Theorem Alphabetical_search_smallest_san
    (board : Board) (r : PlayResult.t Move) :
  Alphabetical.search legal_moves san board = Return r →
  ∃ m before after,
    r = PlayResult (Some m) None false
    ∧ legal_moves board = before ++ m :: after
    ∧ (∀ x, x ∈ before → String.ltb (san board m) (san board x) = true)
    ∧ (∀ x, x ∈ after → String.ltb (san board x) (san board m) = false).
Proof.
  unfold Alphabetical.search. rewrite getitem_0.
  destruct (head (sort_by_key (san board) (legal_moves board)))
    as [m|] eqn:Hhead; [|done].
  simpl. intros [= <-].
  destruct (head_sort_spec _ _ _ Hhead) as (before & after & ? & ? & ?).
  by exists m, before, after.
Qed.

(** X12.  [FirstMove] returns the legal move whose UCI text is smallest in
    code point order, the earliest among equals; no ponder move, no
    resignation. *)
Theorem FirstMove_search_smallest_uci
    (board : Board) (r : PlayResult.t Move) :
  FirstMove.search legal_moves str board = Return r →
  ∃ m before after,
    r = PlayResult (Some m) None false
    ∧ legal_moves board = before ++ m :: after
    ∧ (∀ x, x ∈ before → String.ltb (str m) (str x) = true)
    ∧ (∀ x, x ∈ after → String.ltb (str x) (str m) = false).
Proof.
  unfold FirstMove.search. rewrite getitem_0.
  destruct (head (sort_by_key str (legal_moves board)))
    as [m|] eqn:Hhead; [|done].
  simpl. intros [= <-].
  destruct (head_sort_spec _ _ _ Hhead) as (before & after & ? & ? & ?).
  by exists m, before, after.
Qed.

(** X13.  In a position without legal moves (mate or stalemate) each of
    the three strategies raises [IndexError], and only there: with a legal
    move each of them returns. *)
Theorem strategies_raise_without_legal_moves (draw : nat) (board : Board) :
  (RandomMove.search legal_moves draw board = Raise IndexError
   ↔ legal_moves board = [])
  ∧ (Alphabetical.search legal_moves san board = Raise IndexError
     ↔ legal_moves board = [])
  ∧ (FirstMove.search legal_moves str board = Raise IndexError
     ↔ legal_moves board = []).
Proof.
  unfold RandomMove.search, Alphabetical.search, FirstMove.search.
  rewrite !getitem_0. repeat split.
  - destruct (legal_moves board) as [|m l] eqn:Hl; [done|].
    unfold random_choice. rewrite getitem_nat.
    destruct ((m :: l) !! (draw mod length (m :: l))%nat) eqn:Hlookup;
      [done|].
    apply lookup_ge_None in Hlookup.
    pose proof (Nat.mod_upper_bound draw (length (m :: l))) as Hlt.
    simpl in *. lia.
  - by intros ->.
  - destruct (head (sort_by_key (san board) (legal_moves board))) eqn:Hhead;
      [done|]. intros _. by eapply head_sort_None.
  - by intros ->.
  - destruct (head (sort_by_key str (legal_moves board))) eqn:Hhead;
      [done|]. intros _. by eapply head_sort_None.
  - by intros ->.
Qed.

(** X14.  [RandomMove] returns nothing but legal moves, and every legal
    move is returned for some draw of the generator. *)
Theorem RandomMove_search_legal (board : Board) :
  (∀ draw r,
     RandomMove.search legal_moves draw board = Return r →
     ∃ m, r = PlayResult (Some m) None false ∧ m ∈ legal_moves board)
  ∧ (∀ m,
       m ∈ legal_moves board →
       ∃ draw,
         RandomMove.search legal_moves draw board =
           Return (PlayResult (Some m) None false)).
Proof.
  unfold RandomMove.search, random_choice. split.
  - intros draw r. destruct (legal_moves board) as [|x l]; [done|].
    rewrite getitem_nat.
    destruct ((x :: l) !! (draw mod length (x :: l))%nat) as [m|] eqn:Hm;
      [|done].
    simpl. intros [= <-]. exists m. split; [done|].
    by eapply list_elem_of_lookup_2.
  - intros m (i & Hi)%list_elem_of_lookup. exists i.
    destruct (legal_moves board) as [|x l]; [done|].
    rewrite getitem_nat, Nat.mod_small by (by eapply lookup_lt_Some).
    by rewrite Hi.
Qed.

End Strategies.

(** * The further properties on concrete calls *)

Lemma search_clock_budget_incomplete_witness :
  ∃ e,
    Fixture.search ""
      {| time := None; white_clock := Some (py_float 60);
         black_clock := Some (py_float 60);
         white_inc := None; black_inc := Some (py_float 2) |}
      false false (Fixture.start Fixture.initial) =
      (counted (Fixture.start Fixture.initial), Raise e)
    ∧ e = TypeError.
Proof.
  destruct (search_clock_budget_incomplete Fixture.turn Fixture.fen
              Fixture.parse_san Fixture.parse_uci Fixture.push
              Fixture.float_str (λ _, "")
              {| time := None; white_clock := Some (py_float 60);
                 black_clock := Some (py_float 60);
                 white_inc := None; black_inc := Some (py_float 2) |}
              false false (Fixture.start Fixture.initial)
              eq_refl (or_intror eq_refl)) as (e & Hsearch & _ & Hfinite & _).
  exists e. split; [exact Hsearch|].
  apply (Hfinite (py_float 60) 600); reflexivity.
Defined.

Lemma search_time_overrides_clocks_witness :
  time_control (Fixture.turn Fixture.initial)
    {| time := Some (Float (Float64.of_dyadic 4508103226997866 (-52)));
       white_clock := Some (py_float 60);
       black_clock := Some (py_float 60);
       white_inc := Some (py_float 2); black_inc := Some (py_float 2) |} =
    Return (py_mul (Float (Float64.of_dyadic 4508103226997866 (-52))) 1000)
  ∧ fs (fst (Fixture.search ""
               {| time :=
                    Some (Float (Float64.of_dyadic 4508103226997866 (-52)));
                  white_clock := Some (py_float 60);
                  black_clock := Some (py_float 60);
                  white_inc := Some (py_float 2);
                  black_inc := Some (py_float 2) |}
               false false (Fixture.start Fixture.initial)))
      !! file_in 0 =
      Some (Fixture.request
              (py_mul (Float (Float64.of_dyadic 4508103226997866 (-52)))
                 1000)
              Fixture.initial).
Proof.
  apply (search_time_overrides_clocks Fixture.turn Fixture.fen
           Fixture.parse_san Fixture.parse_uci Fixture.push Fixture.float_str
           (λ _, "")
           {| time :=
                Some (Float (Float64.of_dyadic 4508103226997866 (-52)));
              white_clock := Some (py_float 60);
              black_clock := Some (py_float 60);
              white_inc := Some (py_float 2);
              black_inc := Some (py_float 2) |}
           false false (Fixture.start Fixture.initial)
           (Float (Float64.of_dyadic 4508103226997866 (-52)))).
  reflexivity.
Defined.

Lemma search_leaves_other_files_witness :
  fs (fst (Fixture.search (Fixture.lines ["info"; "COMPUTER PLAYED e4"])
             (fixed_allotment (py_float 1)) false false
             {| self := {| engine_name := "Engine"; move := 1 |};
                board := Fixture.initial;
                fs := {["temp/input-0.txt" := "kept"]} |}))
    !! "temp/input-0.txt" =
    fs {| self := {| engine_name := "Engine"; move := 1 |};
          board := Fixture.initial;
          fs := {["temp/input-0.txt" := "kept"]} |}
      !! "temp/input-0.txt".
Proof.
  apply (search_leaves_other_files Fixture.turn Fixture.fen
           Fixture.parse_san Fixture.parse_uci Fixture.push
           Fixture.float_str
           (λ _, Fixture.lines ["info"; "COMPUTER PLAYED e4"])
           (fixed_allotment (py_float 1)) false false
           {| self := {| engine_name := "Engine"; move := 1 |};
              board := Fixture.initial;
              fs := {["temp/input-0.txt" := "kept"]} |}
           "temp/input-0.txt").
  - intros H. vm_compute in H. discriminate H.
  - intros H. vm_compute in H. discriminate H.
Defined.

Lemma search_response_file_witness :
  fs (fst (Fixture.search (Fixture.lines ["info"; "COMPUTER PLAYED zz"])
             (fixed_allotment (py_float 1)) false false
             (Fixture.start Fixture.initial)))
    !! file_out 0 = Some (Fixture.lines ["info"; "COMPUTER PLAYED zz"]).
Proof.
  apply (search_response_file Fixture.turn Fixture.fen
           Fixture.parse_san Fixture.parse_uci Fixture.push Fixture.float_str
           (λ _, Fixture.lines ["info"; "COMPUTER PLAYED zz"])
           (fixed_allotment (py_float 1)) false false
           (Fixture.start Fixture.initial) (py_mul (py_float 1) 1000)).
  reflexivity.
Defined.

Lemma search_raise_sites_witness :
  snd (Fixture.search (Fixture.lines ["info"; "COMPUTER PLAYED zz"])
         (fixed_allotment (py_float 1)) false false
         (Fixture.start Fixture.initial)) = Raise ValueError
  ∧ (makedirs_error os_ok = Some ValueError
     ∨ time_control (Fixture.turn (board (Fixture.start Fixture.initial)))
         (fixed_allotment (py_float 1)) = Raise ValueError
     ∨ open_write_error os_ok = Some ValueError
     ∨ read_error os_ok = Some ValueError
     ∨ (ValueError = TypeError
        ∧ ∃ tc,
            time_control
              (Fixture.turn (board (Fixture.start Fixture.initial)))
              (fixed_allotment (py_float 1)) = Return tc
            ∧ parse_move
                (response_lines Fixture.fen
                   (λ _, Fixture.lines ["info"; "COMPUTER PLAYED zz"])
                   Fixture.float_str (Fixture.start Fixture.initial) tc) =
                Return None)
     ∨ (ValueError = ValueError
        ∧ ∃ tc token,
            time_control
              (Fixture.turn (board (Fixture.start Fixture.initial)))
              (fixed_allotment (py_float 1)) = Return tc
            ∧ parse_move
                (response_lines Fixture.fen
                   (λ _, Fixture.lines ["info"; "COMPUTER PLAYED zz"])
                   Fixture.float_str (Fixture.start Fixture.initial) tc) =
                Return (Some token)
            ∧ token ≠ RESIGN
            ∧ Fixture.parse_san (board (Fixture.start Fixture.initial))
                token = None
            ∧ Fixture.parse_uci (board (Fixture.start Fixture.initial))
                token = None)).
Proof.
  split; [vm_compute; reflexivity|].
  apply (search_raise_sites Fixture.turn Fixture.fen
           Fixture.parse_san Fixture.parse_uci Fixture.push Fixture.float_str
           os_ok (λ _, Fixture.lines ["info"; "COMPUTER PLAYED zz"])
           (fixed_allotment (py_float 1)) false false
           (Fixture.start Fixture.initial) ValueError).
  vm_compute. reflexivity.
Defined.

Lemma search_resigns_iff_token_witness :
  (∃ r,
     snd (Fixture.search (Fixture.lines ["info"; "COMPUTER PLAYED RESIGN"])
            (fixed_allotment (py_float 1)) false false
            (Fixture.start Fixture.initial)) = Return r
     ∧ PlayResult.resigned r = true)
  ↔ parse_move
      (response_lines Fixture.fen
         (λ _, Fixture.lines ["info"; "COMPUTER PLAYED RESIGN"])
         Fixture.float_str (Fixture.start Fixture.initial)
         (py_mul (py_float 1) 1000)) = Return (Some RESIGN).
Proof.
  apply (search_resigns_iff_token Fixture.turn Fixture.fen
           Fixture.parse_san Fixture.parse_uci Fixture.push Fixture.float_str
           (λ _, Fixture.lines ["info"; "COMPUTER PLAYED RESIGN"])
           (fixed_allotment (py_float 1)) false false
           (Fixture.start Fixture.initial) (py_mul (py_float 1) 1000)).
  reflexivity.
Defined.

Lemma run_calls_keeps_earlier_files_witness :
  fs (run_calls Fixture.turn Fixture.fen Fixture.parse_san Fixture.parse_uci
        Fixture.push Fixture.float_str
        [{| call_board := Fixture.initial;
            call_limit := fixed_allotment (py_float 1);
            call_ponder := false; call_draw_offered := false;
            call_os := os_ok;
            call_backend := λ _,
              Fixture.lines ["info"; "COMPUTER PLAYED e4"] |};
         {| call_board := Fixture.after_e4;
            call_limit :=
              clock_increment (py_float 60) (py_float 2)
                (py_float 60) (py_float 2);
            call_ponder := false; call_draw_offered := false;
            call_os := os_ok;
            call_backend := λ _, "" |}]
        {| self := {| engine_name := "Engine"; move := 1 |};
           board := Fixture.initial;
           fs := {["temp/input-0.txt" := "kept"]} |})
    !! file_in 0 =
    fs {| self := {| engine_name := "Engine"; move := 1 |};
          board := Fixture.initial;
          fs := {["temp/input-0.txt" := "kept"]} |}
      !! file_in 0.
Proof.
  apply (run_calls_keeps_earlier_files Fixture.turn Fixture.fen
           Fixture.parse_san Fixture.parse_uci Fixture.push
           Fixture.float_str
           [{| call_board := Fixture.initial;
               call_limit := fixed_allotment (py_float 1);
               call_ponder := false; call_draw_offered := false;
               call_os := os_ok;
               call_backend :=
                 λ _, Fixture.lines ["info"; "COMPUTER PLAYED e4"] |};
            {| call_board := Fixture.after_e4;
               call_limit :=
                 clock_increment (py_float 60) (py_float 2)
                   (py_float 60) (py_float 2);
               call_ponder := false; call_draw_offered := false;
               call_os := os_ok;
               call_backend := λ _, "" |}]
           {| self := {| engine_name := "Engine"; move := 1 |};
              board := Fixture.initial;
              fs := {["temp/input-0.txt" := "kept"]} |} 0).
  reflexivity.
Defined.

Lemma Alphabetical_search_smallest_san_witness :
  Alphabetical.search Fixture.legal_moves Fixture.san Fixture.initial =
    Return (PlayResult (Some "g1f3") None false)
  ∧ ∃ m before after,
      PlayResult (Some "g1f3") None false = PlayResult (Some m) None false
      ∧ Fixture.legal_moves Fixture.initial = before ++ m :: after
      ∧ (∀ x, x ∈ before →
           String.ltb (Fixture.san Fixture.initial m)
                      (Fixture.san Fixture.initial x) = true)
      ∧ (∀ x, x ∈ after →
           String.ltb (Fixture.san Fixture.initial x)
                      (Fixture.san Fixture.initial m) = false).
Proof.
  split; [reflexivity|].
  apply (Alphabetical_search_smallest_san Fixture.legal_moves Fixture.san
           Fixture.initial (PlayResult (Some "g1f3") None false)).
  reflexivity.
Defined.

Lemma FirstMove_search_smallest_uci_witness :
  FirstMove.search Fixture.legal_moves (λ m : string, m) Fixture.initial =
    Return (PlayResult (Some "e2e4") None false)
  ∧ ∃ m before after,
      PlayResult (Some "e2e4") None false = PlayResult (Some m) None false
      ∧ Fixture.legal_moves Fixture.initial = before ++ m :: after
      ∧ (∀ x, x ∈ before → String.ltb m x = true)
      ∧ (∀ x, x ∈ after → String.ltb x m = false).
Proof.
  split; [reflexivity|].
  apply (FirstMove_search_smallest_uci Fixture.legal_moves (λ m : string, m)
           Fixture.initial (PlayResult (Some "e2e4") None false)).
  reflexivity.
Defined.

(** * Reading the request back *)

Section RequestLines.

Lemma universal_newlines_one_line_app (s t : string) :
  one_line s = true →
  Text.universal_newlines (s +:+ t) = s +:+ Text.universal_newlines t.
Proof.
  induction s as [|c s IH]; [done|]. simpl.
  intros [[_ Hcr]%andb_prop Hs]%andb_prop.
  apply negb_true_iff, bool_decide_eq_false in Hcr.
  change (Text.universal_newlines (String c (s +:+ t)) =
          String c (s +:+ Text.universal_newlines t)).
  simpl. rewrite decide_False by done. by rewrite IH.
Qed.

Lemma split_keepends_one_line_app (s t : string) :
  one_line s = true →
  Text.split_keepends (s +:+ String Text.LF t) =
    (s +:+ NL) :: Text.split_keepends t.
Proof.
  induction s as [|c s IH]; [done|]. simpl.
  intros [[Hlf _]%andb_prop Hs]%andb_prop.
  apply negb_true_iff, bool_decide_eq_false in Hlf.
  change (Text.split_keepends (String c (s +:+ String Text.LF t)) =
          String c (s +:+ NL) :: Text.split_keepends t).
  simpl. rewrite decide_False by done. by rewrite IH.
Qed.

Lemma one_line_app (s t : string) :
  one_line (s +:+ t) = one_line s && one_line t.
Proof.
  induction s as [|c s IH]; [done|].
  change (one_line (String c (s +:+ t)) = one_line (String c s) && one_line t).
  simpl. rewrite IH. by rewrite !andb_assoc.
Qed.

(** A text that begins with a line and its line feed reads as that line
    followed by the lines of the rest. *)
Lemma readlines_line (s t : string) :
  one_line s = true →
  Text.readlines (s +:+ NL +:+ t) = (s +:+ NL) :: Text.readlines t.
Proof.
  intros Hs. unfold Text.readlines.
  rewrite universal_newlines_one_line_app by done.
  change (Text.universal_newlines (NL +:+ t))
    with (String Text.LF (Text.universal_newlines t)).
  by rewrite split_keepends_one_line_app.
Qed.

Context {Board : Type}.
Variable fen : Board → EnPassantSpec → string.
Variable float_str : spec_float → string.

(** X15.  When neither the printed time control nor the serialised
    position contains a line break, the request reads back as exactly four
    lines: the two options, [go] with the position, and [quit], the last
    one without a line end. *)
Theorem request_reads_back_as_four_lines (tc : number) (b : Board) :
  one_line (number_str float_str tc) = true →
  one_line (fen b ep_fen) = true →
  Text.readlines (request fen float_str tc b) =
    [("setoption time_limit " +:+ number_str float_str tc) +:+ NL;
     "setoption table_size 69696983" +:+ NL;
     ("go " +:+ fen b ep_fen) +:+ NL;
     "quit"].
Proof.
  intros Htc Hfen.
  assert (one_line ("setoption time_limit " +:+ number_str float_str tc)
          = true) as Hl1 by (by rewrite one_line_app, Htc).
  assert (one_line ("go " +:+ fen b ep_fen) = true) as Hl3
    by (by rewrite one_line_app, Hfen).
  assert (request fen float_str tc b =
          ("setoption time_limit " +:+ number_str float_str tc) +:+ NL
          +:+ "setoption table_size 69696983" +:+ NL
          +:+ ("go " +:+ fen b ep_fen) +:+ NL +:+ "quit") as ->.
  { unfold request. by rewrite !string_app_assoc. }
  rewrite (readlines_line _ _ Hl1).
  rewrite (readlines_line "setoption table_size 69696983") by reflexivity.
  by rewrite (readlines_line _ _ Hl3).
Qed.

End RequestLines.

Lemma request_reads_back_as_four_lines_witness :
  Text.readlines (Fixture.request (Int 2300) Fixture.after_e4) =
    [("setoption time_limit " +:+ "2300") +:+ NL;
     "setoption table_size 69696983" +:+ NL;
     ("go " +:+ "rnbqkbnr/pppppppp/8/8/4P3/8/PPPP1PPP/RNBQKBNR b KQkq e3 0 1")
       +:+ NL;
     "quit"].
Proof.
  apply (request_reads_back_as_four_lines Fixture.fen Fixture.float_str
           (Int 2300) Fixture.after_e4); reflexivity.
Defined.
